(** * generate_emails.py: a shallow embedding and its verified properties

    The script reads every sheet of a workbook, renders one message per row
    through a Jinja2 template and writes one text file per sheet.  This file
    embeds [format_time] and [generate_emails] and proves the properties the
    specification states about them.

    Python strings are sequences of Unicode code points.  A character is a
    code point [N]; the ASCII range is modelled exactly and the classification
    of the code points above it (the tables behind [str.isalnum],
    [str.isspace] and the regular expression class [\d]) is a parameter, so
    every theorem holds whatever those tables are. *)

From Stdlib Require Import NArith String Ascii List Bool Lia.
From stdpp Require Import base option list gmap.
Import ListNotations.

Local Open Scope N_scope.

(** ** Strings *)

Abbreviation pychar := N.
Abbreviation pystr := (list N).

(** ASCII literal to Python string. *)
Definition str (s : string) : pystr :=
  map N_of_ascii (list_ascii_of_string s).

(** The classification of non-ASCII code points: [str.isalnum],
    [str.isspace], and the value of a decimal digit (category Nd). *)
Class Unicode := {
  uni_alnum : pychar -> bool;
  uni_space : pychar -> bool;
  uni_decimal : pychar -> option N
}.

(** A table that knows no character outside ASCII; used to run examples. *)
Definition ascii_only : Unicode :=
  {| uni_alnum := fun _ => false;
     uni_space := fun _ => false;
     uni_decimal := fun _ => None |}.

Definition between (lo hi c : N) : bool := (lo <=? c) && (c <=? hi).

Section Strings.
Context {U : Unicode}.

(** [c.isalnum()] *)
Definition isalnum (c : pychar) : bool :=
  if c <? 128
  then between 48 57 c || between 65 90 c || between 97 122 c
  else uni_alnum c.

(** [c.isspace()]: in ASCII, TAB..CR, FS..US and the space. *)
Definition isspace (c : pychar) : bool :=
  if c <? 128
  then between 9 13 c || between 28 32 c
  else uni_space c.

(** The value of a character of the regular expression class [\d], which
    is also the value [int] gives it. *)
Definition decimal (c : pychar) : option N :=
  if c <? 128
  then (if between 48 57 c then Some (c - 48) else None)
  else uni_decimal c.

Fixpoint lstrip (s : pystr) : pystr :=
  match s with
  | c :: r => if isspace c then lstrip r else s
  | [] => []
  end.

Definition rstrip (s : pystr) : pystr := reverse (lstrip (reverse s)).

(** [s.strip()] *)
Definition strip (s : pystr) : pystr := rstrip (lstrip s).

(** [sep.join(parts)] *)
Fixpoint join (sep : pystr) (parts : list pystr) : pystr :=
  match parts with
  | [] => []
  | [p] => p
  | p :: rest => p ++ sep ++ join sep rest
  end.

(** *** Sheet-name sanitisation (generate_emails, lines 93-96)

    ["".join(c if c.isalnum() or c in ("-", "_") else "_" for c in sheet_name)] *)
Definition keeps (c : pychar) : bool :=
  isalnum c || (c =? 45) || (c =? 95).

Definition safe_char (c : pychar) : pychar :=
  if keeps c then c else 95.

Definition safe_sheet_name (sheet_name : pystr) : pystr :=
  map safe_char sheet_name.

End Strings.

(** [s.split(sep)] for a one-character separator. *)
Fixpoint split_on (sep : pychar) (s : pystr) : list pystr :=
  match s with
  | [] => [[]]
  | c :: r =>
      if c =? sep then [] :: split_on sep r
      else match split_on sep r with
           | f :: fs => (c :: f) :: fs
           | [] => [[c]]
           end
  end.

(** ** Exceptions *)

Inductive exn :=
| ValueError
| AttributeError
| OSError
| SystemExit (code : N)
| LibraryError (tag : N).   (* whatever pandas or Jinja2 raise *)

Inductive result (A : Type) :=
| Ok (a : A)
| Raise (e : exn).
Arguments Ok {A} a.
Arguments Raise {A} e.

(** ** format_time (lines 26-43) *)

(** The time of day of a [datetime]; the date plays no part in "%I:%M %p". *)
Record datetime := { hour : N; minute : N; second : N }.

(** What [format_time] can be given: [None], a string, a [datetime] or
    [time] object, [pandas.NaT] (an instance of [datetime] that stands for
    a missing time; its [strftime] raises [ValueError]), or an object
    without a [strftime] method. *)
Inductive pyvalue :=
| VNone
| VStr (s : pystr)
| VTime (dt : datetime)
| VNaT
| VObj.

Definition digit (d : N) : pychar := 48 + d.

(** [%02d] *)
Definition two_digits (n : N) : pystr := [digit (n / 10); digit (n mod 10)].

(** [%I]: the hour on the 12-hour clock. *)
Definition hour12 (h : N) : N := if h mod 12 =? 0 then 12 else h mod 12.

(** [%p] in the C locale, the only one the script runs in. *)
Definition am_pm (h : N) : pystr := if h <? 12 then str "AM" else str "PM".

(** [dt.strftime("%I:%M %p")] *)
Definition strftime (dt : datetime) : pystr :=
  two_digits (hour12 (hour dt)) ++ str ":" ++ two_digits (minute dt)
    ++ str " " ++ am_pm (hour dt).

Section Strptime.
Context {U : Unicode}.

(** *** [datetime.strptime(value, "%H:%M:%S")]

    The library turns the format into the regular expression
    [(?P<H>2[0-3]|[0-1]\d|\d):(?P<M>[0-5]\d|\d):(?P<S>6[0-1]|[0-5]\d|\d)],
    matches it at the start of the string, refuses a match that leaves
    characters over, converts the groups with [int] and builds the
    [datetime], whose constructor checks the ranges.  Each failure is a
    [ValueError]. *)

Definition is_d (c : pychar) : bool :=
  match decimal c with Some _ => true | None => false end.

(** One alternative of a group: the matched text and what follows it. *)
Definition alternative : Type := pystr -> option (pystr * pystr).

Definition one (p : pychar -> bool) : alternative := fun s =>
  match s with
  | c :: r => if p c then Some ([c], r) else None
  | [] => None
  end.

Definition two (p q : pychar -> bool) : alternative := fun s =>
  match s with
  | c :: d :: r => if p c && q d then Some ([c; d], r) else None
  | _ => None
  end.

Definition re_H : list alternative :=
  [two (N.eqb 50) (between 48 51); two (between 48 49) is_d; one is_d].
Definition re_M : list alternative :=
  [two (between 48 53) is_d; one is_d].
Definition re_S : list alternative :=
  [two (N.eqb 54) (between 48 49); two (between 48 53) is_d; one is_d].

(** A group followed by the rest of the pattern [k]: the alternatives are
    tried in order, and the next one is tried when the rest fails. *)
Fixpoint group {A : Type} (alts : list alternative) (s : pystr)
    (k : pystr -> pystr -> option A) : option A :=
  match alts with
  | [] => None
  | alt :: alts' =>
      match alt s with
      | Some (tok, r) =>
          match k tok r with
          | Some a => Some a
          | None => group alts' s k
          end
      | None => group alts' s k
      end
  end.

Definition colon {A : Type} (s : pystr) (k : pystr -> option A) : option A :=
  match s with
  | c :: r => if c =? 58 then k r else None
  | [] => None
  end.

(** [format_regex.match(data_string)]: the three groups and the unmatched
    end of the string. *)
Definition re_match (s : pystr) : option (pystr * pystr * pystr * pystr) :=
  group re_H s (fun h r =>
  colon r (fun r =>
  group re_M r (fun m r =>
  colon r (fun r =>
  group re_S r (fun sec r => Some (h, m, sec, r)))))).

(** [int(tok)] on a string of decimal digits. *)
Definition int (tok : pystr) : N :=
  fold_left (fun acc c => 10 * acc + default 0 (decimal c)) tok 0.

(** The constructor [datetime(1900, 1, 1, h, m, s)]. *)
Definition datetime_new (h m s : N) : result datetime :=
  if (h <=? 23) && (m <=? 59) && (s <=? 59)
  then Ok {| hour := h; minute := m; second := s |}
  else Raise ValueError.

Definition strptime (s : pystr) : result datetime :=
  match re_match s with
  | None => Raise ValueError                 (* does not match format *)
  | Some (_, _, _, _ :: _) => Raise ValueError   (* unconverted data remains *)
  | Some (h, m, sec, []) => datetime_new (int h) (int m) (int sec)
  end.

Definition format_time (value : pyvalue) : result pystr :=
  match value with
  | VNone => Ok []                           (* value is None *)
  | VStr [] => Ok []                         (* value == "" *)
  | VStr s =>
      match strptime s with
      | Ok dt => Ok (strftime dt)
      | Raise ValueError => Ok s             (* fallback if parsing fails *)
      | Raise e => Raise e
      end
  | VTime dt => Ok (strftime dt)             (* datetime object already *)
  | VNaT => Raise ValueError                 (* NaT.strftime raises *)
  | VObj => Raise AttributeError             (* no strftime method *)
  end.

(** *** The time strings the specification speaks of *)

(** A string in the 24-hour "HH:MM:SS" form: two ASCII digits per field,
    hour at most 23, minute and second at most 59. *)
Definition valid_hms (s : pystr) : bool :=
  match s with
  | [h1; h2; c1; m1; m2; c2; s1; s2] =>
      forallb (between 48 57) [h1; h2; m1; m2; s1; s2]
      && (c1 =? 58) && (c2 =? 58)
      && (10 * (h1 - 48) + (h2 - 48) <=? 23)
      && (10 * (m1 - 48) + (m2 - 48) <=? 59)
      && (10 * (s1 - 48) + (s2 - 48) <=? 59)
  | _ => false
  end.

(** The number written by the two digits at positions [i] and [i + 1]. *)
Definition field_at (i : nat) (s : pystr) : N :=
  10 * (nth i s 48 - 48) + (nth (S i) s 48 - 48).

(** One or two decimal digits. *)
Definition token (tok : pystr) : bool :=
  (Nat.eqb (length tok) 1 || Nat.eqb (length tok) 2) && forallb is_d tok.

(** One field of the looser form: one or two decimal digits, at most [max]. *)
Definition field (max : N) (f : pystr) : bool :=
  token f && (int f <=? max).

(** An alternative splits the string into a token and what follows it. *)
Definition sound (alt : alternative) : Prop :=
  forall s tok r, alt s = Some (tok, r) -> s = tok ++ r /\ token tok = true.

(** The looser form "H:M:S": three fields separated by colons, hour at
    most 23, minute and second at most 59. *)
Definition lenient_hms (s : pystr) : bool :=
  match split_on 58 s with
  | [fh; fm; fs] => field 23 fh && field 59 fm && field 59 fs
  | _ => false
  end.

End Strptime.

(** ** Paths, the file system and the console *)

(** A [pathlib.Path]: whether it is anchored at the root, and its parts. *)
Record pypath := { absolute : bool; parts : list pystr }.

Definition is_part (p : pystr) : bool :=
  negb (bool_decide (p = [])) && negb (bool_decide (p = str ".")).

(** [Path(s)]: empty parts and "." parts are dropped. *)
Definition Path (s : pystr) : pypath :=
  {| absolute := match s with 47 :: _ => true | _ => false end;
     parts := List.filter is_part (split_on 47 s) |}.

(** [p / q]: an absolute right operand replaces the left one. *)
Definition joinpath (p q : pypath) : pypath :=
  if absolute q then q
  else {| absolute := absolute p; parts := parts p ++ parts q |}.

(** [p.parent] *)
Definition parent (p : pypath) : pypath :=
  {| absolute := absolute p; parts := removelast (parts p) |}.

(** A table as [pd.read_excel] returns it: the column labels and, for each
    row, one cell per column. *)
Record DataFrame (C : Type) := { columns : list pystr; rows : list (list C) }.
Arguments columns {C} d.
Arguments rows {C} d.

(** [df.fillna("")]: a missing cell is [None] before and [""] after. *)
Definition fillna (df : DataFrame (option pystr)) : DataFrame pystr :=
  {| columns := columns df; rows := map (map (default [])) (rows df) |}.

(** [len(df)] *)
Definition len {C : Type} (df : DataFrame C) : nat := length (rows df).

(** A loaded template: [template.render( **context )]. *)
Definition template : Type := gmap pystr pystr -> result pystr.

(** What the script prints, line by line.
    - [ExcelNotFound p]: "Excel file not found: p"
    - [TemplateFileNotFound p]: "Template file not found: p"
    - [TemplateFolderNotFound p]: "Template folder not found: p"
    - [ReadFailed e]: "Failed to read Excel file: e"
    - [SheetWritten n p]: "n messages written to p"
    - [Done t k]: "Done! Generated t total messages across k sheet(s)." *)
Inductive line :=
| ExcelNotFound (p : pypath)
| TemplateFileNotFound (p : pypath)
| TemplateFolderNotFound (p : pypath)
| ReadFailed (e : exn)
| SheetWritten (n : nat) (p : pypath)
| Done (total : nat) (sheets : nat).

(** What a run leaves behind: the printed lines and the files written, both
    in order. *)
Record world := { console : list line; written : list (pypath * pystr) }.

Definition start : world := {| console := []; written := [] |}.

(** What the script finds around it. *)
Class Env := {
  TEMPLATE_DIR : pypath;
  path_exists : pypath -> bool;
  read_excel : pypath -> result (list (pystr * DataFrame (option pystr)));
  get_template : pystr -> result template;
  can_write : pypath -> bool
}.

(** ** A state and exception monad for the script *)

Definition M (A : Type) : Type := world -> result A * world.

Definition ret {A : Type} (a : A) : M A := fun w => (Ok a, w).

Definition bind {A B : Type} (m : M A) (k : A -> M B) : M B := fun w =>
  match m w with
  | (Ok a, w') => k a w'
  | (Raise e, w') => (Raise e, w')
  end.

Definition raise {A : Type} (e : exn) : M A := fun w => (Raise e, w).

Definition lift {A : Type} (r : result A) : M A := fun w => (r, w).

Declare Scope py_scope.
Delimit Scope py_scope with py.
Notation "'let*' x ':=' m 'in' k" := (bind m (fun x => k))
  (at level 10, x name, m at level 100, k at level 200) : py_scope.
Notation "m ';;' k" := (bind m (fun _ => k))
  (at level 100, k at level 200, right associativity) : py_scope.

(** [print(...)]; the console is taken to accept every line. *)
Definition print (l : line) : M unit := fun w =>
  (Ok tt, {| console := console w ++ [l]; written := written w |}).

(** [sys.exit(code)] *)
Definition sys_exit {A : Type} (code : N) : M A := raise (SystemExit code).

(** [for x in xs: acc = body(acc, x)] *)
Fixpoint for_each {A B : Type} (body : B -> A -> M B) (acc : B) (xs : list A) : M B :=
  match xs with
  | [] => ret acc
  | x :: xs' => bind (body acc x) (fun acc' => for_each body acc' xs')
  end.

(** The same loop without effects other than exceptions. *)
Fixpoint for_each_r {A B : Type} (body : B -> A -> result B) (acc : B) (xs : list A)
    : result B :=
  match xs with
  | [] => Ok acc
  | x :: xs' =>
      match body acc x with
      | Ok acc' => for_each_r body acc' xs'
      | Raise e => Raise e
      end
  end.

(** ** generate_emails (lines 46-107) *)

Section Script.
Context {U : Unicode} {E : Env}.
Local Open Scope py_scope.

(** [{col: row[col] for col in df.columns}] *)
Definition make_context (cols : list pystr) (row : list pystr) : gmap pystr pystr :=
  fold_left (fun ctx kv => <[kv.1 := kv.2]> ctx) (zip cols row) ∅.

(** [row.get(label, default)] *)
Fixpoint row_get (cols : list pystr) (row : list pystr) (label dflt : pystr) : pystr :=
  match cols, row with
  | c :: cols', v :: row' =>
      if bool_decide (c = label) then v else row_get cols' row' label dflt
  | _, _ => dflt
  end.

(** ["-" * 60] *)
Definition separator : pystr := repeat 45 60%nat.

(** The body of the loop over the rows (lines 81-91): [messages] after the
    iteration for [row], from [messages] before it. *)
Definition row_step (tpl : template) (cols : list pystr)
    (messages : list pystr) (row : list pystr) : result (list pystr) :=
  let context := make_context cols row in
  match context !! str "Time" with
  | Some time =>                                   (* "Time" in context *)
      match format_time (VStr time) with
      | Raise e => Raise e
      | Ok formatted =>
          let context := <[str "Time" := formatted]> context in
          match tpl context with
          | Raise e => Raise e
          | Ok rendered =>
              let text := strip rendered in
              let to_line := str "To: " ++ strip (row_get cols row (str "email") []) in
              Ok (messages
                    ++ [to_line ++ [10; 10] ++ text ++ [10; 10] ++ separator ++ [10]])
          end
      end
  | None => Ok messages
  end.

(** [open(output_path, "w")] and [f.write(text)], taken as one step:
    [can_write] tells whether the file can be written.  What a failure
    between the opening and the writing leaves on disk is not modelled. *)
Definition write_file (p : pypath) (text : pystr) : M unit := fun w =>
  if can_write p
  then (Ok tt, {| console := console w; written := written w ++ [(p, text)] |})
  else (Raise OSError, w).

(** [output_dir / f"emails_output_{safe_sheet_name}.txt"] *)
Definition output_file (output_dir : pypath) (sheet_name : pystr) : pypath :=
  joinpath output_dir
    (Path (str "emails_output_" ++ safe_sheet_name sheet_name ++ str ".txt")).

(** The loop over the rows of a sheet (lines 78-91): the sheet's [messages]. *)
Definition sheet_messages (tpl : template) (df : DataFrame pystr) : result (list pystr) :=
  for_each_r (row_step tpl (columns df)) [] (rows df).

(** The body of the loop over the sheets (lines 77-103): [total_messages]
    after the iteration, from [total_messages] before it. *)
Definition sheet_step (tpl : template) (output_dir : pypath) (total_messages : nat)
    (sheet : pystr * DataFrame (option pystr)) : M nat :=
  let sheet_name := sheet.1 in
  let df := fillna sheet.2 in
  let* messages := lift (sheet_messages tpl df) in
  let output_path := output_file output_dir sheet_name in
  write_file output_path (join [10] messages);;
  print (SheetWritten (len df) output_path);;
  ret (total_messages + len df)%nat.

(** [try: pd.read_excel(...) except Exception as e: print(...); sys.exit(1)] *)
Definition load_sheets (excel_path : pypath)
    : M (list (pystr * DataFrame (option pystr))) :=
  match read_excel excel_path with
  | Ok sheets => ret sheets
  | Raise (SystemExit c) => raise (SystemExit c)   (* not an [Exception] *)
  | Raise e => print (ReadFailed e);; sys_exit 1
  end.

Definition generate_emails (excel_path : pypath) (template_file : pystr) : M unit :=
  if negb (path_exists excel_path) then
    print (ExcelNotFound excel_path);; sys_exit 1
  else
  let template_path := joinpath TEMPLATE_DIR (Path template_file) in
  if negb (path_exists template_path) then
    print (TemplateFileNotFound template_path);; sys_exit 1
  else
  if negb (path_exists TEMPLATE_DIR) then
    print (TemplateFolderNotFound TEMPLATE_DIR);; sys_exit 1
  else
  let* sheets := load_sheets excel_path in
  let* tpl := lift (get_template template_file) in
  let output_dir := parent excel_path in
  let* total_messages := for_each (sheet_step tpl output_dir) 0%nat sheets in
  print (Done total_messages (length sheets)).

(** The exit status of the process for the outcome of [generate_emails]:
    an uncaught exception other than [SystemExit] also ends it with 1. *)
Definition exit_status {A : Type} (r : result A) : N :=
  match r with
  | Ok _ => 0
  | Raise (SystemExit c) => c
  | Raise _ => 1
  end.

(** *** The totals the specification speaks of *)

(** The sum of the row counts of all the sheets. *)
Definition total_rows (sheets : list (pystr * DataFrame (option pystr))) : nat :=
  fold_right (fun sheet n => (len sheet.2 + n)%nat) 0%nat sheets.

(** The sum of the row counts of the sheets that have a "Time" column. *)
Definition time_rows (sheets : list (pystr * DataFrame (option pystr))) : nat :=
  fold_right
    (fun sheet n =>
       if bool_decide (str "Time" ∈ columns sheet.2) then (len sheet.2 + n)%nat else n)
    0%nat sheets.

(** [t] is [s] without its leading and trailing whitespace. *)
Definition trimmed (s t : pystr) : Prop :=
  exists l r : pystr,
    s = l ++ t ++ r
    /\ forallb isspace l = true /\ forallb isspace r = true
    /\ (forall c, head t = Some c -> isspace c = false)
    /\ (forall c, last t = Some c -> isspace c = false).

End Script.

(** ** The command line (lines 110-119) *)

(** [input(prompt)]: the next line of standard input and what is left of it;
    [None] when there is no line left, where Python raises [EOFError]. *)
Definition input (stdin : list pystr) : option (pystr * list pystr) :=
  match stdin with
  | l :: rest => Some (l, rest)
  | [] => None
  end.

Section Main.
Context {U : Unicode} {E : Env}.

(** Lines 112-117: the path and the template name, from [sys.argv] when it
    has more than two entries and from two prompts otherwise, with what is
    left of standard input. *)
Definition read_arguments (argv : list pystr) (stdin : list pystr)
    : option (pypath * pystr * list pystr) :=
  if (2 <? length argv)%nat then
    Some (Path (nth 1 argv []), nth 2 argv [], stdin)
  else
    match input stdin with
    | None => None
    | Some (l1, stdin1) =>
        match input stdin1 with
        | None => None
        | Some (l2, stdin2) => Some (Path (strip l1), strip l2, stdin2)
        end
    end.

(** The script run as a program: the outcome of [generate_emails] on the
    arguments read, and [None] when a prompt met the end of standard input.
    The prompts themselves are not recorded on the console. *)
Definition main (argv : list pystr) (stdin : list pystr) : option (result unit * world) :=
  match read_arguments argv stdin with
  | None => None
  | Some (excel_path, template_file, _) =>
      Some (generate_emails excel_path template_file start)
  end.

End Main.

(** ** More vocabulary for the properties *)

(** [f] writes [n] with two digits, or with one digit when [n] is below ten. *)
Definition spells (f : pystr) (n : N) : bool :=
  bool_decide (f = two_digits n) || ((n <=? 9) && bool_decide (f = [digit n])).

(** Every row of the table has one cell per column. *)
Definition well_formed {C : Type} (df : DataFrame C) : bool :=
  forallb (fun row => Nat.eqb (length row) (length (columns df))) (rows df).

(** ** Concrete surroundings, to run the script on *)

Definition same_path (p q : pypath) : bool :=
  Bool.eqb (absolute p) (absolute q) && bool_decide (parts p = parts q).

Definition contacts : pypath := Path (str "data/contacts.xlsx").

(** "Hello {{name}}, your time is {{Time}}" *)
Definition hello : template := fun context =>
  Ok (str "Hello " ++ default [] (context !! str "name")
        ++ str ", your time is " ++ default [] (context !! str "Time")).

Definition team_columns : list pystr := [str "name"; str "email"; str "Time"].

(** A workbook with the sheets "Team A" (two rows) and "Team B" (no row). *)
Definition teams : list (pystr * DataFrame (option pystr)) :=
  [ (str "Team A",
     {| columns := team_columns;
        rows := [ [Some (str "Ann"); Some (str " ann@example.org "); Some (str "09:00:00")];
                  [Some (str "Bob"); None; Some (str "13:30:00")] ] |});
    (str "Team B", {| columns := team_columns; rows := [] |}) ].

(** Everything is in place: the workbook, the folder and the template. *)
Definition office : Env :=
  {| TEMPLATE_DIR := Path (str "templates");
     path_exists := fun _ => true;
     read_excel := fun _ => Ok teams;
     get_template := fun _ => Ok hello;
     can_write := fun _ => true |}.

(** A workbook whose only sheet, "Notes", has one row and no "Time" column. *)
Definition notes : list (pystr * DataFrame (option pystr)) :=
  [ (str "Notes", {| columns := [str "name"]; rows := [[Some (str "Ann")]] |}) ].

Definition notes_office : Env :=
  {| TEMPLATE_DIR := Path (str "templates");
     path_exists := fun _ => true;
     read_excel := fun _ => Ok notes;
     get_template := fun _ => Ok hello;
     can_write := fun _ => true |}.

(** The workbook and its folder exist; there is no "templates" folder, and
    so nothing inside it either. *)
Definition no_templates : Env :=
  {| TEMPLATE_DIR := Path (str "templates");
     path_exists := fun p => same_path p (Path (str "data")) || same_path p contacts;
     read_excel := fun _ => Ok teams;
     get_template := fun _ => Raise (LibraryError 0);
     can_write := fun _ => true |}.

(** What the run on [office] leaves behind. *)
Definition office_world : world :=
  (generate_emails (U := ascii_only) (E := office) contacts (str "invite.txt") start).2.

(** The first row of "Team A", after [fillna]. *)
Definition ann : list pystr := [str "Ann"; str " ann@example.org "; str "09:00:00"].

(** A template whose rendering fails. *)
Definition broken : template := fun _ => Raise (LibraryError 1).

(** The sheet "Team A" after [fillna]. *)
Definition team_a : DataFrame pystr :=
  {| columns := team_columns;
     rows := [ ann; [str "Bob"; []; str "13:30:00"] ] |}.

(** What the run on [no_templates] leaves behind. *)
Definition no_templates_world : world :=
  (generate_emails (U := ascii_only) (E := no_templates) contacts (str "invite.txt") start).2.

(** ** The files after a run *)

(** The content of the file at [p] after the writes of [log], made in
    order: [open(p, "w")] truncates, so the last write to [p] is what the
    file holds; [None] when nothing was written there. *)
Fixpoint read_back (log : list (pypath * pystr)) (p : pypath) : option pystr :=
  match log with
  | [] => None
  | (q, text) :: rest =>
      match read_back rest p with
      | Some later => Some later
      | None => if same_path q p then Some text else None
      end
  end.

(** A workbook with the sheets "Team A" (Ann's row) and "Team_A" (Bob's). *)
Definition twins : list (pystr * DataFrame (option pystr)) :=
  [ (str "Team A",
     {| columns := team_columns;
        rows := [ [Some (str "Ann"); Some (str " ann@example.org "); Some (str "09:00:00")] ] |});
    (str "Team_A",
     {| columns := team_columns;
        rows := [ [Some (str "Bob"); None; Some (str "13:30:00")] ] |}) ].

Definition twins_office : Env :=
  {| TEMPLATE_DIR := Path (str "templates");
     path_exists := fun _ => true;
     read_excel := fun _ => Ok twins;
     get_template := fun _ => Ok hello;
     can_write := fun _ => true |}.

(** What the run on [twins_office] leaves behind. *)
Definition twins_world : world :=
  (generate_emails (U := ascii_only) (E := twins_office) contacts (str "invite.txt") start).2.

(** The message for Ann's row and the message for Bob's row, in full. *)
Definition ann_message : pystr :=
  str "To: ann@example.org" ++ [10; 10]
    ++ str "Hello Ann, your time is 09:00 AM" ++ [10; 10]
    ++ str "------------------------------------------------------------" ++ [10].

Definition bob_message : pystr :=
  str "To: " ++ [10; 10]
    ++ str "Hello Bob, your time is 01:30 PM" ++ [10; 10]
    ++ str "------------------------------------------------------------" ++ [10].

Section StringFacts.
Context {U : Unicode}.

Lemma keeps_underscore : keeps 95 = true.
Proof. reflexivity. Qed.

Lemma safe_char_keeps c : keeps (safe_char c) = true.
Proof.
  unfold safe_char. destruct (keeps c) eqn:E; [exact E | apply keeps_underscore].
Qed.

Lemma safe_char_fixed c : keeps c = true -> safe_char c = c.
Proof. unfold safe_char. intros ->. reflexivity. Qed.

Lemma safe_char_idem c : safe_char (safe_char c) = safe_char c.
Proof. apply safe_char_fixed, safe_char_keeps. Qed.

(** C7. Sanitising a sheet name twice gives the same result as sanitising
    it once, and "Q1 Sales!" becomes "Q1_Sales_", which is left as it is. *)
Theorem safe_sheet_name_idempotent :
  (forall sheet_name : pystr,
      safe_sheet_name (safe_sheet_name sheet_name) = safe_sheet_name sheet_name)
  /\ safe_sheet_name (str "Q1 Sales!") = str "Q1_Sales_"
  /\ safe_sheet_name (str "Q1_Sales_") = str "Q1_Sales_".
Proof.
  split; [| split; reflexivity].
  intros n. unfold safe_sheet_name. rewrite map_map.
  apply map_ext. intros c. apply safe_char_idem.
Qed.

(** C10. The sanitised name has the length of the sheet name, and position
    by position its character is the sheet name's character when that one
    is alphanumeric, "-" or "_", and "_" otherwise: nothing is dropped,
    nothing is inserted. *)
Theorem safe_sheet_name_pointwise (sheet_name : pystr) :
  length (safe_sheet_name sheet_name) = length sheet_name
  /\ Forall2
       (fun c d : pychar =>
          (d = c /\ (isalnum c = true \/ c = 45 \/ c = 95))
          \/ (d = 95 /\ isalnum c = false /\ c <> 45 /\ c <> 95))
       sheet_name (safe_sheet_name sheet_name).
Proof.
  split; [apply length_map |].
  induction sheet_name as [| c rest IH]; simpl; constructor; [| exact IH].
  unfold safe_char, keeps.
  destruct (isalnum c) eqn:Ea; simpl; [left; auto |].
  destruct (N.eqb_spec c 45) as [-> | N1]; simpl; [left; auto |].
  destruct (N.eqb_spec c 95) as [-> | N2]; simpl; [left; auto |].
  right. auto.
Qed.

End StringFacts.

Section TimeFacts.
Context {U : Unicode}.

Lemma between_true lo hi c : lo <= c <= hi -> between lo hi c = true.
Proof.
  intros [H1 H2]. unfold between.
  apply andb_true_intro. split; apply N.leb_le; assumption.
Qed.

Lemma between_spec lo hi c : between lo hi c = true <-> lo <= c <= hi.
Proof.
  unfold between. rewrite andb_true_iff, !N.leb_le. tauto.
Qed.

Lemma decimal_digit d : d <= 9 -> decimal (digit d) = Some d.
Proof.
  intros H. unfold decimal, digit.
  destruct (N.ltb_spec (48 + d) 128) as [_ | H']; [| lia].
  rewrite between_true by lia. f_equal. lia.
Qed.

Lemma is_d_digit d : d <= 9 -> is_d (digit d) = true.
Proof. intros H. unfold is_d. rewrite decimal_digit by exact H. reflexivity. Qed.

Lemma colon_digit {A : Type} d r (k : pystr -> option A) :
  d <= 9 -> colon (digit d :: r) k = None.
Proof.
  intros H. unfold colon, digit.
  destruct (N.eqb_spec (48 + d) 58) as [E | _]; [lia | reflexivity].
Qed.

Lemma colon_hit {A : Type} r (k : pystr -> option A) : colon (58 :: r) k = k r.
Proof. reflexivity. Qed.

Lemma int_two_digits a b : a <= 9 -> b <= 9 -> int [digit a; digit b] = 10 * a + b.
Proof.
  intros Ha Hb. unfold int. simpl.
  rewrite !decimal_digit by assumption. simpl. lia.
Qed.

Lemma two_hit (p q : pychar -> bool) c d r :
  p c = true -> q d = true -> two p q (c :: d :: r) = Some ([c; d], r).
Proof. intros Hp Hq. unfold two. rewrite Hp, Hq. reflexivity. Qed.

Lemma two_miss (p q : pychar -> bool) c d r :
  p c = false -> two p q (c :: d :: r) = None.
Proof. intros Hp. unfold two. rewrite Hp. reflexivity. Qed.

Lemma one_hit (p : pychar -> bool) c r :
  p c = true -> one p (c :: r) = Some ([c], r).
Proof. intros Hp. unfold one. rewrite Hp. reflexivity. Qed.

Lemma eqb_digit_false n d : n <> 48 + d -> N.eqb n (digit d) = false.
Proof. intros H. apply N.eqb_neq. exact H. Qed.

(** The fall-back to a shorter alternative never rescues a two-digit field:
    what follows its first digit is a digit, not the colon. *)
Lemma group_H_two {A : Type} (K : pystr -> pystr -> option A) a b r :
  b <= 9 -> 10 * a + b <= 23 ->
  K [digit a] (digit b :: r) = None ->
  group re_H (digit a :: digit b :: r) K = K [digit a; digit b] r.
Proof.
  intros Hb Hh HK. unfold re_H. cbn [group].
  rewrite (one_hit is_d) by (apply is_d_digit; lia). rewrite HK.
  destruct (N.eq_dec a 2) as [-> | Ha].
  - rewrite two_hit;
      [| reflexivity | apply between_true; unfold digit; lia].
    destruct (K _ r); [reflexivity |].
    rewrite two_miss by reflexivity. reflexivity.
  - rewrite two_miss by (apply eqb_digit_false; lia).
    rewrite two_hit;
      [| apply between_true; unfold digit; lia | apply is_d_digit; lia].
    destruct (K _ r); reflexivity.
Qed.

Lemma group_M_two {A : Type} (K : pystr -> pystr -> option A) c d r :
  c <= 5 -> d <= 9 ->
  K [digit c] (digit d :: r) = None ->
  group re_M (digit c :: digit d :: r) K = K [digit c; digit d] r.
Proof.
  intros Hc Hd HK. unfold re_M. cbn [group].
  rewrite (one_hit is_d) by (apply is_d_digit; lia). rewrite HK.
  rewrite two_hit;
    [| apply between_true; unfold digit; lia | apply is_d_digit; lia].
  destruct (K _ r); reflexivity.
Qed.

Lemma group_S_two {A : Type} (K : pystr -> pystr -> option A) e f r x :
  e <= 5 -> f <= 9 ->
  K [digit e; digit f] r = Some x ->
  group re_S (digit e :: digit f :: r) K = Some x.
Proof.
  intros He Hf HK. unfold re_S. cbn [group].
  rewrite two_miss by (apply eqb_digit_false; lia).
  rewrite two_hit;
    [| apply between_true; unfold digit; lia | apply is_d_digit; lia].
  rewrite HK. reflexivity.
Qed.

Lemma re_match_digits a b c d e f :
  b <= 9 -> 10 * a + b <= 23 ->
  c <= 5 -> d <= 9 -> e <= 5 -> f <= 9 ->
  re_match [digit a; digit b; 58; digit c; digit d; 58; digit e; digit f]
  = Some ([digit a; digit b], [digit c; digit d], [digit e; digit f], []).
Proof.
  intros Hb Hh Hc Hd He Hf. unfold re_match.
  rewrite group_H_two; [| assumption | assumption | apply colon_digit; assumption].
  cbv beta. rewrite colon_hit.
  rewrite group_M_two; [| assumption | assumption | apply colon_digit; assumption].
  cbv beta. rewrite colon_hit.
  apply group_S_two; [assumption | assumption | reflexivity].
Qed.

Lemma strptime_digits a b c d e f :
  b <= 9 -> 10 * a + b <= 23 ->
  d <= 9 -> 10 * c + d <= 59 ->
  f <= 9 -> 10 * e + f <= 59 ->
  strptime [digit a; digit b; 58; digit c; digit d; 58; digit e; digit f]
  = Ok {| hour := 10 * a + b; minute := 10 * c + d; second := 10 * e + f |}.
Proof.
  intros Hb Hh Hd Hm Hf Hs. unfold strptime.
  rewrite re_match_digits by lia.
  rewrite !int_two_digits by lia.
  unfold datetime_new.
  rewrite !(proj2 (N.leb_le _ _)) by assumption. reflexivity.
Qed.

Lemma hour12_range h : 1 <= hour12 h <= 12.
Proof.
  unfold hour12. destruct (N.eqb_spec (h mod 12) 0) as [_ | Hn]; [lia |].
  assert (h mod 12 < 12) by (apply N.mod_upper_bound; discriminate).
  revert Hn H. generalize (h mod 12). intros n Hn H. lia.
Qed.

Lemma valid_hms_shape s :
  valid_hms s = true ->
  exists a b c d e f,
    s = [digit a; digit b; 58; digit c; digit d; 58; digit e; digit f]
    /\ (a <= 9 /\ b <= 9 /\ c <= 9 /\ d <= 9 /\ e <= 9 /\ f <= 9)
    /\ 10 * a + b <= 23 /\ 10 * c + d <= 59 /\ 10 * e + f <= 59.
Proof.
  destruct s as [| h1 [| h2 [| c1 [| m1 [| m2 [| c2 [| s1 [| s2 [| x r]]]]]]]]];
    try discriminate.
  unfold valid_hms, forallb.
  rewrite !andb_true_iff, !between_spec, !N.eqb_eq, !N.leb_le.
  intros H. exists (h1 - 48), (h2 - 48), (m1 - 48), (m2 - 48), (s1 - 48), (s2 - 48).
  unfold digit.
  replace c1 with 58 by lia. replace c2 with 58 by lia.
  split; [| lia].
  repeat f_equal; lia.
Qed.

(** *** What a successful match looks like *)

Lemma is_d_ascii c : between 48 57 c = true -> is_d c = true.
Proof.
  intros H. unfold is_d, decimal. rewrite H.
  apply between_spec in H.
  destruct (N.ltb_spec c 128) as [_ | H']; [reflexivity | lia].
Qed.

Lemma is_d_between hi c : hi <= 57 -> between 48 hi c = true -> is_d c = true.
Proof.
  intros Hhi H. apply is_d_ascii. apply between_spec in H.
  apply between_true. lia.
Qed.

Lemma is_d_eqb n c : 48 <= n <= 57 -> N.eqb n c = true -> is_d c = true.
Proof.
  intros Hn H. apply N.eqb_eq in H. subst c. apply is_d_ascii, between_true, Hn.
Qed.

Lemma one_inv (p : pychar -> bool) s tok r :
  one p s = Some (tok, r) -> exists c, tok = [c] /\ s = c :: r /\ p c = true.
Proof.
  unfold one. destruct s as [| c s']; [discriminate |].
  destruct (p c) eqn:E; [| discriminate].
  intros [= <- <-]. exists c. auto.
Qed.

Lemma two_inv (p q : pychar -> bool) s tok r :
  two p q s = Some (tok, r) ->
  exists c d, tok = [c; d] /\ s = c :: d :: r /\ p c = true /\ q d = true.
Proof.
  unfold two. destruct s as [| c [| d s']]; [discriminate | discriminate |].
  destruct (p c) eqn:Ep; [| discriminate].
  destruct (q d) eqn:Eq; [| discriminate].
  intros [= <- <-]. exists c, d. auto.
Qed.

Lemma one_token s tok r :
  one is_d s = Some (tok, r) -> s = tok ++ r /\ token tok = true.
Proof.
  intros H. apply one_inv in H as (c & -> & -> & Hc).
  split; [reflexivity |]. unfold token. simpl. rewrite Hc. reflexivity.
Qed.

Lemma two_token (p q : pychar -> bool) s tok r :
  (forall c, p c = true -> is_d c = true) ->
  (forall c, q c = true -> is_d c = true) ->
  two p q s = Some (tok, r) -> s = tok ++ r /\ token tok = true.
Proof.
  intros Hp Hq H. apply two_inv in H as (c & d & -> & -> & Hc & Hd).
  split; [reflexivity |]. unfold token. simpl.
  rewrite (Hp c Hc), (Hq d Hd). reflexivity.
Qed.

Lemma re_H_sound : Forall sound re_H.
Proof.
  unfold re_H. repeat apply List.Forall_cons; [| | | apply List.Forall_nil]; intros s tok r.
  - apply two_token; intros c.
    + apply is_d_eqb. lia.
    + apply is_d_between. lia.
  - apply two_token; intros c; [apply is_d_between; lia | auto].
  - apply one_token.
Qed.

Lemma re_M_sound : Forall sound re_M.
Proof.
  unfold re_M. repeat apply List.Forall_cons; [| | apply List.Forall_nil]; intros s tok r.
  - apply two_token; intros c; [apply is_d_between; lia | auto].
  - apply one_token.
Qed.

Lemma re_S_sound : Forall sound re_S.
Proof.
  unfold re_S. repeat apply List.Forall_cons; [| | | apply List.Forall_nil]; intros s tok r.
  - apply two_token; intros c.
    + apply is_d_eqb. lia.
    + apply is_d_between. lia.
  - apply two_token; intros c; [apply is_d_between; lia | auto].
  - apply one_token.
Qed.

Lemma group_inv {A : Type} alts s (K : pystr -> pystr -> option A) x :
  Forall sound alts ->
  group alts s K = Some x ->
  exists tok r, s = tok ++ r /\ token tok = true /\ K tok r = Some x.
Proof.
  intros Hs. induction Hs as [| alt alts Halt _ IH]; [discriminate |].
  cbn [group]. destruct (alt s) as [[tok r] |] eqn:E; [| exact IH].
  destruct (K tok r) as [y |] eqn:EK; [| exact IH].
  intros [= <-]. destruct (Halt s tok r E) as [-> Ht].
  exists tok, r. auto.
Qed.

Lemma colon_inv {A : Type} s (k : pystr -> option A) x :
  colon s k = Some x -> exists r, s = 58 :: r /\ k r = Some x.
Proof.
  unfold colon. destruct s as [| c r]; [discriminate |].
  destruct (N.eqb_spec c 58) as [-> | _]; [| discriminate].
  intros H. exists r. auto.
Qed.

Lemma re_match_inv s h m sec rest :
  re_match s = Some (h, m, sec, rest) ->
  s = h ++ 58 :: m ++ 58 :: sec ++ rest
  /\ token h = true /\ token m = true /\ token sec = true.
Proof.
  unfold re_match. intros H.
  apply (group_inv _ _ _ _ re_H_sound) in H as (th & r1 & -> & Hh & H).
  apply colon_inv in H as (r2 & -> & H).
  apply (group_inv _ _ _ _ re_M_sound) in H as (tm & r3 & -> & Hm & H).
  apply colon_inv in H as (r4 & -> & H).
  apply (group_inv _ _ _ _ re_S_sound) in H as (ts & r5 & -> & Hs & H).
  injection H as <- <- <- <-. auto.
Qed.

Lemma token_no_colon tok : token tok = true -> Forall (fun c => c <> 58) tok.
Proof.
  unfold token. rewrite andb_true_iff, forallb_forall. intros [_ H].
  apply List.Forall_forall. intros c Hc ->. specialize (H 58 Hc). discriminate.
Qed.

Lemma split_on_plain sep f :
  Forall (fun c => c <> sep) f -> split_on sep f = [f].
Proof.
  induction 1 as [| c f Hc _ IH]; [reflexivity |].
  simpl. destruct (N.eqb_spec c sep) as [Ec | _]; [contradiction |].
  rewrite IH. reflexivity.
Qed.

Lemma split_on_field sep f r :
  Forall (fun c => c <> sep) f ->
  split_on sep (f ++ sep :: r) = f :: split_on sep r.
Proof.
  induction 1 as [| c f Hc _ IH]; [simpl; rewrite N.eqb_refl; reflexivity |].
  simpl. destruct (N.eqb_spec c sep) as [Ec | _]; [contradiction |].
  rewrite IH. reflexivity.
Qed.

(** Whatever [strptime] accepts is in the looser form "H:M:S". *)
Lemma strptime_lenient s dt : strptime s = Ok dt -> lenient_hms s = true.
Proof.
  unfold strptime.
  destruct (re_match s) as [[[[h m] sec] [| x r]] |] eqn:E; try discriminate.
  apply re_match_inv in E as (-> & Hh & Hm & Hs).
  unfold datetime_new.
  destruct (_ && _) eqn:R; [intros _ | discriminate].
  apply andb_true_iff in R as [R R3]. apply andb_true_iff in R as [R1 R2].
  unfold lenient_hms. rewrite app_nil_r.
  rewrite split_on_field by (apply token_no_colon; assumption).
  rewrite split_on_field by (apply token_no_colon; assumption).
  rewrite split_on_plain by (apply token_no_colon; assumption).
  unfold field.
  rewrite Hh, Hm, Hs, R1, R2, R3. reflexivity.
Qed.

Lemma strptime_raises s e : strptime s = Raise e -> e = ValueError.
Proof.
  unfold strptime, datetime_new.
  destruct (re_match s) as [[[[h m] sec] [| x r]] |];
    [| intros [= <-]; reflexivity | intros [= <-]; reflexivity].
  destruct (_ && _); [discriminate | intros [= <-]; reflexivity].
Qed.

(** C5. A string in the 24-hour form "HH:MM:SS" is turned into
    "HH:MM AM/PM": the hour on the 12-hour clock, between 01 and 12 and
    written with two digits, the minute as it was, and "AM" before noon,
    "PM" from noon on.  "09:00:00" gives "09:00 AM", "13:30:00" gives
    "01:30 PM" and "00:00:00" gives "12:00 AM". *)
Theorem format_time_valid_hms :
  (forall s : pystr,
      valid_hms s = true ->
      let h := field_at 0 s in
      let m := field_at 3 s in
      format_time (VStr s)
      = Ok (two_digits (hour12 h) ++ str ":" ++ two_digits m ++ str " "
              ++ (if h <? 12 then str "AM" else str "PM"))
      /\ 1 <= hour12 h <= 12 /\ m <= 59)
  /\ format_time (VStr (str "09:00:00")) = Ok (str "09:00 AM")
  /\ format_time (VStr (str "13:30:00")) = Ok (str "01:30 PM")
  /\ format_time (VStr (str "00:00:00")) = Ok (str "12:00 AM").
Proof.
  split; [| repeat split; reflexivity].
  intros s Hs.
  destruct (valid_hms_shape s Hs)
    as (a & b & c & d & e & f & -> & Hd & Hh & Hm & Hsec).
  assert (Ea : field_at 0 [digit a; digit b; 58; digit c; digit d; 58; digit e; digit f]
               = 10 * a + b) by (unfold field_at, digit; simpl; lia).
  assert (Ec : field_at 3 [digit a; digit b; 58; digit c; digit d; 58; digit e; digit f]
               = 10 * c + d) by (unfold field_at, digit; simpl; lia).
  cbv zeta. rewrite Ea, Ec.
  split; [| split; [apply hour12_range | exact Hm]].
  cbn [format_time].
  rewrite strptime_digits by lia. reflexivity.
Qed.

(** C6, as the code has it.  A string that is not of the form "H:M:S"
    (three fields of one or two decimal digits separated by colons, hour
    at most 23, minute and second at most 59) is returned as it is; "9am"
    is such a string. *)
Theorem format_time_fallback :
  (forall s : pystr, lenient_hms s = false -> format_time (VStr s) = Ok s)
  /\ format_time (VStr (str "9am")) = Ok (str "9am").
Proof.
  split; [| reflexivity].
  intros s Hs. destruct s as [| c r]; [reflexivity |].
  cbn [format_time].
  destruct (strptime (c :: r)) as [dt | e] eqn:E.
  - apply strptime_lenient in E. congruence.
  - apply strptime_raises in E. subst e. reflexivity.
Qed.

End TimeFacts.

Section ScriptFacts.
Context {U : Unicode} {E : Env}.

Lemma fold_insert_absent (l : list (pystr * pystr)) (m : gmap pystr pystr) k :
  m !! k = None ->
  (forall v, (k, v) ∉ l) ->
  fold_left (fun ctx kv => <[kv.1 := kv.2]> ctx) l m !! k = None.
Proof.
  revert m. induction l as [| [k' v'] l IH]; intros m Hm Hl; [exact Hm |].
  simpl. apply IH.
  - rewrite lookup_insert_ne; [exact Hm |].
    intros ->. apply (Hl v'). left.
  - intros v Hv. apply (Hl v). right. exact Hv.
Qed.

(** A label that is not a column is not a key of the context. *)
Lemma make_context_absent cols row k :
  k ∉ cols -> make_context cols row !! k = None.
Proof.
  intros Hk. unfold make_context. apply fold_insert_absent.
  - apply lookup_empty.
  - intros v Hv. apply Hk. eapply elem_of_zip_l. exact Hv.
Qed.

(** C1. A row whose context has no "Time" key leaves the sheet's message
    list as it was, whatever the template: nothing is rendered and nothing
    is appended for that row. *)
Theorem row_without_time_adds_nothing
    (tpl : template) (cols : list pystr) (messages : list pystr) (row : list pystr) :
  make_context cols row !! str "Time" = None ->
  row_step tpl cols messages row = Ok messages.
Proof.
  intros H. unfold row_step. rewrite H. reflexivity.
Qed.

(** A sheet without a "Time" column has no message at all. *)
Lemma sheet_without_time tpl (df : DataFrame pystr) :
  str "Time" ∉ columns df -> sheet_messages tpl df = Ok [].
Proof.
  intros H. unfold sheet_messages.
  induction (rows df) as [| row rest IH]; [reflexivity |].
  cbn [for_each_r]. unfold row_step at 1.
  rewrite make_context_absent by exact H. exact IH.
Qed.

(** *** A completed run *)

Lemma len_fillna df : len (fillna df) = len df.
Proof. unfold len, fillna. simpl. apply length_map. Qed.

Lemma sheet_step_ok tpl dir total sheet w total' w' :
  sheet_step tpl dir total sheet w = (Ok total', w') ->
  exists messages,
    sheet_messages tpl (fillna sheet.2) = Ok messages
    /\ total' = (total + len sheet.2)%nat
    /\ console w' = console w ++ [SheetWritten (len sheet.2) (output_file dir sheet.1)]
    /\ written w' = written w ++ [(output_file dir sheet.1, join [10] messages)].
Proof.
  unfold sheet_step, bind, lift, write_file, print, ret.
  destruct (sheet_messages tpl (fillna sheet.2)) as [messages | e]; [| discriminate].
  destruct (can_write _); [| discriminate].
  simpl. rewrite len_fillna. intros [= <- <-]. exists messages. simpl. auto.
Qed.

(** The lines printed and the files written for the sheets, in order. *)
Lemma for_each_sheets_ok tpl dir sheets total w total' w' :
  for_each (sheet_step tpl dir) total sheets w = (Ok total', w') ->
  total' = (total + total_rows sheets)%nat
  /\ console w'
     = console w
         ++ map (fun sheet => SheetWritten (len sheet.2) (output_file dir sheet.1)) sheets
  /\ exists files,
      written w' = written w ++ files
      /\ Forall2
           (fun sheet file =>
              file.1 = output_file dir sheet.1
              /\ exists messages,
                  sheet_messages tpl (fillna sheet.2) = Ok messages
                  /\ file.2 = join [10] messages)
           sheets files.
Proof.
  revert total w. induction sheets as [| sheet sheets IH]; intros total w.
  - intros [= <- <-]. simpl. rewrite Nat.add_0_r, app_nil_r.
    split; [reflexivity |]. split; [reflexivity |].
    exists []. rewrite app_nil_r. split; [reflexivity | constructor].
  - cbn [for_each]. unfold bind at 1.
    destruct (sheet_step tpl dir total sheet w) as [[t1 | e] w1] eqn:E1; [| discriminate].
    intros H. apply IH in H as (-> & Hc & files & Hw & Hf).
    apply sheet_step_ok in E1 as (messages & Hm & -> & Hc1 & Hw1).
    split; [simpl; lia |]. split.
    + rewrite Hc, Hc1. rewrite <- app_assoc. reflexivity.
    + exists ((output_file dir sheet.1, join [10] messages) :: files). split.
      * rewrite Hw, Hw1. rewrite <- app_assoc. reflexivity.
      * constructor; [| exact Hf]. split; [reflexivity |]. exists messages. auto.
Qed.

Lemma generate_emails_ok excel_path template_file w :
  generate_emails excel_path template_file start = (Ok tt, w) ->
  exists sheets tpl,
    read_excel excel_path = Ok sheets
    /\ get_template template_file = Ok tpl
    /\ console w
       = map (fun sheet =>
                SheetWritten (len sheet.2) (output_file (parent excel_path) sheet.1))
           sheets
         ++ [Done (total_rows sheets) (length sheets)]
    /\ Forall2
         (fun sheet file =>
            file.1 = output_file (parent excel_path) sheet.1
            /\ exists messages,
                sheet_messages tpl (fillna sheet.2) = Ok messages
                /\ file.2 = join [10] messages)
         sheets (written w).
Proof.
  unfold generate_emails.
  destruct (path_exists excel_path); [| discriminate]. cbn [negb].
  destruct (path_exists (joinpath _ _)); [| discriminate]. cbn [negb].
  destruct (path_exists TEMPLATE_DIR); [| discriminate]. cbn [negb].
  unfold bind at 1. unfold load_sheets.
  destruct (read_excel excel_path) as [sheets | e];
    [| destruct e; discriminate].
  unfold ret at 1. unfold bind at 1, lift.
  destruct (get_template template_file) as [tpl | e]; [| discriminate].
  unfold bind.
  destruct (for_each _ _ sheets start) as [[total | e] w1] eqn:E1; [| discriminate].
  unfold print. intros [= <-]. cbn [console written].
  apply for_each_sheets_ok in E1 as (-> & Hc & files & Hw & Hf).
  exists sheets, tpl. rewrite Hc. simpl in Hw. subst files. simpl. auto.
Qed.

(** C3, as the code has it.  When a run completes, the last line printed
    is the summary, and the total it reports is the sum of the row counts
    of all the sheets, with or without a "Time" column. *)
Theorem reported_total_counts_all_rows excel_path template_file w :
  generate_emails excel_path template_file start = (Ok tt, w) ->
  exists sheets,
    read_excel excel_path = Ok sheets
    /\ last (console w) = Some (Done (total_rows sheets) (length sheets)).
Proof.
  intros H. apply generate_emails_ok in H as (sheets & tpl & Hr & _ & Hc & _).
  exists sheets. split; [exact Hr |]. rewrite Hc. apply last_snoc.
Qed.

(** *** The output file *)

Lemma keeps_not_slash c : keeps c = true -> c <> 47.
Proof. intros H ->. discriminate. Qed.

Lemma safe_sheet_name_no_slash n : Forall (fun c => c <> 47) (safe_sheet_name n).
Proof.
  unfold safe_sheet_name. apply List.Forall_forall. intros c Hc.
  apply in_map_iff in Hc as (c0 & <- & _).
  apply keeps_not_slash, safe_char_keeps.
Qed.

(** Whatever the sheet is called, the file name is a single path part: the
    file lands in [output_dir] itself. *)
Lemma output_file_parts dir sheet_name :
  output_file dir sheet_name
  = {| absolute := absolute dir;
       parts := parts dir
                  ++ [str "emails_output_" ++ safe_sheet_name sheet_name ++ str ".txt"] |}.
Proof.
  unfold output_file, Path.
  rewrite split_on_plain.
  - reflexivity.
  - apply Forall_app. split; [| apply Forall_app; split].
    + repeat constructor; discriminate.
    + apply safe_sheet_name_no_slash.
    + repeat constructor; discriminate.
Qed.

(** *** The message of a row *)

Lemma lstrip_spec s :
  exists l,
    s = l ++ lstrip s
    /\ forallb isspace l = true
    /\ (forall c, head (lstrip s) = Some c -> isspace c = false).
Proof.
  induction s as [| c s (l & Hs & Hl & Hh)].
  - exists []. repeat split. discriminate.
  - simpl. destruct (isspace c) eqn:Ec.
    + exists (c :: l). simpl. rewrite Ec, Hl. split; [f_equal; exact Hs | auto].
    + exists []. repeat split. intros c' [= <-]. exact Ec.
Qed.

Lemma forallb_reverse (p : pychar -> bool) l :
  forallb p l = true -> forallb p (reverse l) = true.
Proof.
  rewrite !forallb_forall. intros H c Hc. apply H.
  apply list_elem_of_In. apply list_elem_of_In in Hc.
  apply elem_of_reverse. exact Hc.
Qed.

Lemma rstrip_spec s :
  exists r,
    s = rstrip s ++ r
    /\ forallb isspace r = true
    /\ (forall c, last (rstrip s) = Some c -> isspace c = false).
Proof.
  unfold rstrip.
  destruct (lstrip_spec (reverse s)) as (l & Hs & Hl & Hh).
  exists (reverse l). split; [| split].
  - rewrite <- reverse_app, <- Hs. symmetry. apply reverse_involutive.
  - apply forallb_reverse, Hl.
  - intros c. rewrite last_reverse. apply Hh.
Qed.

(** [strip] removes whitespace, and only whitespace, from both ends. *)
Lemma strip_trimmed s : trimmed s (strip s).
Proof.
  unfold trimmed, strip.
  destruct (lstrip_spec s) as (l & Hs & Hl & Hh).
  destruct (rstrip_spec (lstrip s)) as (r & Ht & Hr & Hlast).
  exists l, r. split; [| split; [exact Hl | split; [exact Hr | split; [| exact Hlast]]]].
  - rewrite <- Ht. exact Hs.
  - intros c Hc. apply Hh. rewrite Ht.
    destruct (rstrip (lstrip s)); [discriminate | exact Hc].
Qed.

(** *** The checks before the run (lines 49-60) *)

(** In a file system where a path below a folder exists only if the folder
    does, a missing template folder is always reported as a missing
    template file: the folder check comes second and is never reached. *)
Lemma missing_folder_reported_as_file excel_path template_file :
  (forall p q, absolute q = false ->
               path_exists (joinpath p q) = true -> path_exists p = true) ->
  absolute (Path template_file) = false ->
  path_exists excel_path = true ->
  path_exists TEMPLATE_DIR = false ->
  generate_emails excel_path template_file start
  = (Raise (SystemExit 1),
     {| console := [TemplateFileNotFound (joinpath TEMPLATE_DIR (Path template_file))];
        written := [] |}).
Proof.
  intros Hfs Hrel Hx Hdir. unfold generate_emails. rewrite Hx. cbn [negb].
  destruct (path_exists (joinpath _ _)) eqn:Ef; [| reflexivity].
  apply Hfs in Ef; [congruence | exact Hrel].
Qed.

(** A missing template file in an existing folder is reported as such. *)
Lemma missing_file_reported excel_path template_file :
  path_exists excel_path = true ->
  path_exists (joinpath TEMPLATE_DIR (Path template_file)) = false ->
  generate_emails excel_path template_file start
  = (Raise (SystemExit 1),
     {| console := [TemplateFileNotFound (joinpath TEMPLATE_DIR (Path template_file))];
        written := [] |}).
Proof.
  intros Hx Hf. unfold generate_emails. rewrite Hx, Hf. reflexivity.
Qed.

End ScriptFacts.

(** ** The script at work *)

(** C4. With the workbook in place and no "templates" folder, asking for
    "invite.txt" ends the run with status 1 after the line "Template file
    not found: templates/invite.txt": the line for a missing folder, which
    would name "templates", is not printed. *)
Theorem missing_folder_run :
  @path_exists no_templates (@TEMPLATE_DIR no_templates) = false
  /\ generate_emails (U := ascii_only) (E := no_templates) contacts (str "invite.txt") start
     = (Raise (SystemExit 1),
        {| console := [TemplateFileNotFound (Path (str "templates/invite.txt"))];
           written := [] |})
  /\ exit_status (A := unit) (Raise (SystemExit 1)) = 1.
Proof. repeat split; vm_compute; reflexivity. Qed.

(** *** The theorems at concrete inputs *)

Lemma row_without_time_adds_nothing_witness :
  make_context [str "name"] [str "Ann"] !! str "Time" = None
  /\ row_step (U := ascii_only) hello [str "name"] [] [str "Ann"] = Ok [].
Proof.
  split; [vm_compute; reflexivity |].
  apply row_without_time_adds_nothing. vm_compute. reflexivity.
Defined.

Lemma format_time_valid_hms_witness :
  valid_hms (str "13:30:00") = true
  /\ format_time (U := ascii_only) (VStr (str "13:30:00")) = Ok (str "01:30 PM").
Proof.
  split; [reflexivity |].
  exact (proj1 (proj1 (format_time_valid_hms (U := ascii_only)) (str "13:30:00") eq_refl)).
Defined.

Lemma format_time_fallback_witness :
  lenient_hms (U := ascii_only) (str "9am") = false
  /\ format_time (U := ascii_only) (VStr (str "9am")) = Ok (str "9am").
Proof.
  split; [reflexivity |].
  apply (proj1 (format_time_fallback (U := ascii_only))). reflexivity.
Defined.

(** C6 as the specification words it fails: "9:5:3" is not in the form
    "HH:MM:SS", and it is parsed and reformatted all the same. *)
Lemma short_fields_are_reformatted :
  ~ (forall (U : Unicode) (s : pystr),
        s <> [] -> valid_hms s = false -> format_time (VStr s) = Ok s).
Proof.
  intros H.
  specialize (H ascii_only (str "9:5:3")).
  assert (format_time (U := ascii_only) (VStr (str "9:5:3")) = Ok (str "09:05 AM"))
    as Hrun by reflexivity.
  rewrite H in Hrun; [discriminate | discriminate | reflexivity].
Qed.

Lemma office_run :
  generate_emails (U := ascii_only) (E := office) contacts (str "invite.txt") start
  = (Ok tt, office_world).
Proof. vm_compute. reflexivity. Defined.

Lemma reported_total_counts_all_rows_witness :
  generate_emails (U := ascii_only) (E := office) contacts (str "invite.txt") start
  = (Ok tt, office_world)
  /\ exists sheets,
      read_excel (Env := office) contacts = Ok sheets
      /\ last (console office_world) = Some (Done (total_rows sheets) (length sheets)).
Proof.
  split; [exact office_run |].
  exact (reported_total_counts_all_rows (U := ascii_only) (E := office)
           contacts (str "invite.txt") office_world office_run).
Defined.

(** C3 as the specification words it fails: the sheet "Notes" has one row
    and no "Time" column, and the summary reports one message, not none. *)
Lemma reported_total_is_not_time_rows :
  ~ (forall (U : Unicode) (E : Env) excel_path template_file w sheets,
        generate_emails excel_path template_file start = (Ok tt, w) ->
        read_excel excel_path = Ok sheets ->
        exists k, last (console w) = Some (Done (time_rows sheets) k)).
Proof.
  intros H.
  destruct (H ascii_only notes_office contacts (str "invite.txt")
              (generate_emails (U := ascii_only) (E := notes_office)
                 contacts (str "invite.txt") start).2
              notes)
    as [k Hk].
  - vm_compute. reflexivity.
  - reflexivity.
  - vm_compute in Hk. discriminate Hk.
Qed.

(** ** Further properties of format_time *)

Section MoreTimeFacts.
Context {U : Unicode}.

Lemma two_miss_second (p q : pychar -> bool) c d r :
  q d = false -> two p q (c :: d :: r) = None.
Proof. intros Hq. unfold two. rewrite Hq, andb_false_r. reflexivity. Qed.

Lemma div_mod_10 n : n = 10 * (n / 10) + n mod 10 /\ n mod 10 <= 9.
Proof.
  split; [apply N.div_mod'; discriminate |].
  assert (n mod 10 < 10) as H by (apply N.mod_upper_bound; discriminate).
  revert H. generalize (n mod 10). intros k H. lia.
Qed.

Lemma group_H_one {A : Type} (K : pystr -> pystr -> option A) a r :
  a <= 9 -> group re_H (digit a :: 58 :: r) K = K [digit a] (58 :: r).
Proof.
  intros Ha. unfold re_H. cbn [group].
  rewrite !two_miss_second by reflexivity.
  rewrite (one_hit is_d) by (apply is_d_digit; exact Ha).
  destruct (K _ _); reflexivity.
Qed.

Lemma group_M_one {A : Type} (K : pystr -> pystr -> option A) c r :
  c <= 9 -> group re_M (digit c :: 58 :: r) K = K [digit c] (58 :: r).
Proof.
  intros Hc. unfold re_M. cbn [group].
  rewrite two_miss_second by reflexivity.
  rewrite (one_hit is_d) by (apply is_d_digit; exact Hc).
  destruct (K _ _); reflexivity.
Qed.

Lemma group_S_one {A : Type} (K : pystr -> pystr -> option A) e x :
  e <= 9 -> K [digit e] [] = Some x -> group re_S [digit e] K = Some x.
Proof.
  intros He HK. unfold re_S. cbn [group]. cbn [two].
  rewrite (one_hit is_d) by (apply is_d_digit; exact He).
  rewrite HK. reflexivity.
Qed.

Lemma spells_cases f n :
  spells f n = true -> f = two_digits n \/ (n <= 9 /\ f = [digit n]).
Proof.
  unfold spells. rewrite orb_true_iff, andb_true_iff, !bool_decide_eq_true, N.leb_le.
  tauto.
Qed.

Lemma int_spelled f n : n <= 99 -> spells f n = true -> int f = n.
Proof.
  intros Hn Hf. destruct (div_mod_10 n) as [Hdm Hm].
  apply spells_cases in Hf as [-> | [H9 ->]].
  - unfold two_digits. rewrite int_two_digits; [lia | | exact Hm].
    revert Hdm Hm. generalize (n / 10), (n mod 10). intros a b Hdm Hm. lia.
  - unfold int. simpl. rewrite decimal_digit by exact H9. reflexivity.
Qed.

(** A field in either spelling, followed by a colon, is matched whole. *)
Lemma group_H_spelled {A : Type} (k : pystr -> pystr -> option A) f h r :
  h <= 23 -> spells f h = true ->
  group re_H (f ++ 58 :: r) (fun tok r' => colon r' (k tok)) = k f r.
Proof.
  intros Hh Hf. destruct (div_mod_10 h) as [Hdm Hm].
  apply spells_cases in Hf as [-> | [H9 ->]].
  - unfold two_digits. cbn [app].
    rewrite group_H_two;
      [reflexivity | exact Hm | | apply colon_digit; exact Hm].
    revert Hdm Hm. generalize (h / 10), (h mod 10). intros a b Hdm Hm. lia.
  - cbn [app]. rewrite group_H_one by exact H9. reflexivity.
Qed.

Lemma group_M_spelled {A : Type} (k : pystr -> pystr -> option A) f m r :
  m <= 59 -> spells f m = true ->
  group re_M (f ++ 58 :: r) (fun tok r' => colon r' (k tok)) = k f r.
Proof.
  intros Hh Hf. destruct (div_mod_10 m) as [Hdm Hm].
  apply spells_cases in Hf as [-> | [H9 ->]].
  - unfold two_digits. cbn [app].
    rewrite group_M_two;
      [reflexivity | | exact Hm | apply colon_digit; exact Hm].
    revert Hdm Hm. generalize (m / 10), (m mod 10). intros a b Hdm Hm. lia.
  - cbn [app]. rewrite group_M_one by exact H9. reflexivity.
Qed.

Lemma group_S_spelled {A : Type} (K : pystr -> pystr -> option A) f sec x :
  sec <= 59 -> spells f sec = true ->
  K f [] = Some x -> group re_S f K = Some x.
Proof.
  intros Hh Hf HK. destruct (div_mod_10 sec) as [Hdm Hm].
  apply spells_cases in Hf as [-> | [H9 ->]].
  - unfold two_digits in *. apply group_S_two; [| exact Hm | exact HK].
    revert Hdm Hm. generalize (sec / 10), (sec mod 10). intros a b Hdm Hm. lia.
  - apply group_S_one; assumption.
Qed.

Lemma strptime_spelled fh fm fs h m sec :
  h <= 23 -> m <= 59 -> sec <= 59 ->
  spells fh h = true -> spells fm m = true -> spells fs sec = true ->
  strptime (fh ++ 58 :: fm ++ 58 :: fs)
  = Ok {| hour := h; minute := m; second := sec |}.
Proof.
  intros Hh Hm Hs Sh Sm Ss. unfold strptime, re_match.
  rewrite (group_H_spelled _ fh h) by assumption.
  rewrite (group_M_spelled _ fm m) by assumption.
  rewrite (group_S_spelled _ fs sec (fh, fm, fs, [])) by (assumption || reflexivity).
  rewrite (int_spelled fh h), (int_spelled fm m), (int_spelled fs sec)
    by (assumption || lia).
  unfold datetime_new.
  rewrite !(proj2 (N.leb_le _ _)) by assumption. reflexivity.
Qed.

(** X1. The leading zero of each field is optional: hour, minute and second
    written with one or two digits, in any mix, give the text the padded
    spelling gives. *)
Theorem format_time_optional_zero (fh fm fs : pystr) (h m sec : N) :
  h <= 23 -> m <= 59 -> sec <= 59 ->
  spells fh h = true -> spells fm m = true -> spells fs sec = true ->
  format_time (VStr (fh ++ str ":" ++ fm ++ str ":" ++ fs))
  = Ok (two_digits (hour12 h) ++ str ":" ++ two_digits m ++ str " "
          ++ (if h <? 12 then str "AM" else str "PM")).
Proof.
  intros Hh Hm Hs Sh Sm Ss.
  change (fh ++ str ":" ++ fm ++ str ":" ++ fs) with (fh ++ 58 :: fm ++ 58 :: fs).
  pose proof (strptime_spelled fh fm fs h m sec Hh Hm Hs Sh Sm Ss) as Hp.
  destruct (fh ++ 58 :: fm ++ 58 :: fs) as [| c r] eqn:Es.
  - destruct fh; discriminate.
  - cbn [format_time]. rewrite Hp. reflexivity.
Qed.

End MoreTimeFacts.

Section TimeOutputFacts.
Context {U : Unicode}.

Lemma token_last tok :
  token tok = true -> exists c, last tok = Some c /\ is_d c = true.
Proof.
  unfold token. rewrite andb_true_iff. intros [Hl Hd].
  destruct tok as [| a [| b [| x r]]]; try discriminate Hl.
  - exists a. simpl in *. rewrite andb_true_r in Hd. auto.
  - exists b. simpl in *. apply andb_true_iff in Hd as [_ Hd].
    rewrite andb_true_r in Hd. auto.
Qed.

(** What [strptime] accepts ends with a digit. *)
Lemma strptime_last_digit s dt :
  strptime s = Ok dt -> exists c, last s = Some c /\ is_d c = true.
Proof.
  unfold strptime.
  destruct (re_match s) as [[[[h m] sec] [| x r]] |] eqn:Em; try discriminate.
  intros _. apply re_match_inv in Em as (-> & _ & _ & Hs).
  apply token_last in Hs as (c & Hc & Hd). exists c. split; [| exact Hd].
  rewrite app_nil_r.
  rewrite last_app, (last_cons 58), last_app, (last_cons 58), Hc. reflexivity.
Qed.

Lemma strftime_length dt : length (strftime dt) = 8%nat.
Proof. unfold strftime, am_pm. destruct (_ <? _); reflexivity. Qed.

Lemma strftime_last dt : last (strftime dt) = Some 77.
Proof. unfold strftime, am_pm. destruct (_ <? _); reflexivity. Qed.

Lemma format_time_str_cases s t :
  format_time (VStr s) = Ok t ->
  t = s \/ exists dt, strptime s = Ok dt /\ t = strftime dt.
Proof.
  destruct s as [| c r]; [intros [= <-]; left; reflexivity |].
  cbn [format_time].
  destruct (strptime (c :: r)) as [dt | e] eqn:Ep.
  - intros [= <-]. right. exists dt. auto.
  - apply strptime_raises in Ep. subst e. intros [= <-]. left. reflexivity.
Qed.

(** The formatted text is not a time string any more. *)
Lemma strptime_strftime dt : strptime (strftime dt) = Raise ValueError.
Proof.
  destruct (strptime (strftime dt)) as [dt' | e] eqn:Ep.
  - apply strptime_last_digit in Ep as (c & Hc & Hd).
    rewrite strftime_last in Hc. injection Hc as <-. discriminate Hd.
  - apply strptime_raises in Ep. subst e. reflexivity.
Qed.

(** X2. Formatting is idempotent on strings: what [format_time] returns for
    a string is returned unchanged when formatted again. *)
Theorem format_time_idempotent (s t : pystr) :
  format_time (VStr s) = Ok t -> format_time (VStr t) = Ok t.
Proof.
  intros H. destruct (format_time_str_cases s t H) as [-> | (dt & _ & ->)];
    [exact H |].
  pose proof (strftime_length dt) as Hl.
  destruct (strftime dt) as [| c r] eqn:Es; [discriminate Hl |].
  cbn [format_time]. rewrite <- Es, strptime_strftime. reflexivity.
Qed.

(** X3. For a string, [format_time] returns either the string itself or a
    text of exactly eight characters; it returns the empty string only for
    the empty string. *)
Theorem format_time_output_shape (s t : pystr) :
  format_time (VStr s) = Ok t ->
  (t = s \/ length t = 8%nat) /\ (t = [] -> s = []).
Proof.
  intros H. destruct (format_time_str_cases s t H) as [-> | (dt & _ & ->)].
  - split; [left; reflexivity | auto].
  - pose proof (strftime_length dt) as Hl. split; [right; exact Hl |].
    intros E. rewrite E in Hl. discriminate Hl.
Qed.

End TimeOutputFacts.

(** ** Further properties of generate_emails *)

Section RowFacts.
Context {U : Unicode} {E : Env}.

Lemma fold_insert_congr (l : list (pystr * pystr)) (m m' : gmap pystr pystr) k :
  m !! k = m' !! k ->
  fold_left (fun ctx kv => <[kv.1 := kv.2]> ctx) l m !! k
  = fold_left (fun ctx kv => <[kv.1 := kv.2]> ctx) l m' !! k.
Proof.
  revert m m'. induction l as [| [k' v'] l IH]; intros m m' H; [exact H |].
  simpl. apply IH. destruct (decide (k' = k)) as [-> | Hne].
  - rewrite !lookup_insert_eq. reflexivity.
  - rewrite !lookup_insert_ne by exact Hne. exact H.
Qed.

Lemma fold_insert_keeps (l : list (pystr * pystr)) (m : gmap pystr pystr) k :
  is_Some (m !! k) ->
  is_Some (fold_left (fun ctx kv => <[kv.1 := kv.2]> ctx) l m !! k).
Proof.
  revert m. induction l as [| [k' v'] l IH]; intros m H; [exact H |].
  simpl. apply IH. apply lookup_insert_is_Some'. right. exact H.
Qed.

(** In a row with a cell for each column, every column is a key of the
    context. *)
Lemma make_context_present cols row k :
  length row = length cols -> k ∈ cols -> is_Some (make_context cols row !! k).
Proof.
  unfold make_context. generalize (∅ : gmap pystr pystr).
  revert row. induction cols as [| c cols IH]; intros row m Hl Hk.
  - apply elem_of_nil in Hk. contradiction.
  - destruct row as [| v row]; [discriminate Hl |]. injection Hl as Hl.
    simpl. apply elem_of_cons in Hk as [-> | Hk].
    + apply fold_insert_keeps. rewrite lookup_insert_eq. eauto.
    + apply IH; assumption.
Qed.

(** The message list a row is given is only ever extended. *)
Lemma row_step_acc tpl cols acc row :
  row_step tpl cols acc row
  = match row_step tpl cols [] row with
    | Ok d => Ok (acc ++ d)
    | Raise e => Raise e
    end.
Proof.
  unfold row_step.
  destruct (make_context cols row !! str "Time") as [time |];
    [| rewrite app_nil_r; reflexivity].
  destruct (format_time (VStr time)) as [formatted | e]; [| reflexivity].
  destruct (tpl _) as [rendered | e]; reflexivity.
Qed.

Lemma format_time_cell time : exists formatted, format_time (VStr time) = Ok formatted.
Proof.
  destruct time as [| c r]; [exists []; reflexivity |].
  cbn [format_time]. destruct (strptime (c :: r)) as [dt | e] eqn:Ep.
  - eauto.
  - apply strptime_raises in Ep. subst e. eauto.
Qed.

(** X4. A row can only fail through the template: when the step for a row
    raises, the row has a "Time" cell, formatting it succeeded, and the
    exception is the one the template raised for the context with the
    formatted time. *)
Theorem row_fails_only_in_template
    (tpl : template) (cols : list pystr) (messages : list pystr) (row : list pystr)
    (e : exn) :
  row_step tpl cols messages row = Raise e ->
  exists time formatted : pystr,
    make_context cols row !! str "Time" = Some time
    /\ format_time (VStr time) = Ok formatted
    /\ tpl (<[str "Time" := formatted]> (make_context cols row)) = Raise e.
Proof.
  unfold row_step.
  destruct (make_context cols row !! str "Time") as [time |]; [| discriminate].
  destruct (format_time_cell time) as [formatted Hf]. rewrite Hf.
  destruct (tpl _) as [rendered | e'] eqn:Et; [discriminate |].
  intros [= <-]. exists time, formatted. auto.
Qed.

Lemma row_step_time tpl cols row d :
  is_Some (make_context cols row !! str "Time") ->
  row_step tpl cols [] row = Ok d -> exists msg, d = [msg].
Proof.
  intros [time Ht]. unfold row_step. rewrite Ht.
  destruct (format_time (VStr time)) as [formatted | e]; [| discriminate].
  destruct (tpl _) as [rendered | e]; [| discriminate].
  intros [= <-]. eauto.
Qed.

Lemma rows_with_time tpl cols rows acc res :
  str "Time" ∈ cols ->
  forallb (fun row => Nat.eqb (length row) (length cols)) rows = true ->
  for_each_r (row_step tpl cols) acc rows = Ok res ->
  exists msgs,
    res = acc ++ msgs
    /\ Forall2 (fun row msg => row_step tpl cols [] row = Ok [msg]) rows msgs.
Proof.
  intros Ht. revert acc. induction rows as [| row rows IH]; intros acc Hwf.
  - intros [= <-]. exists []. rewrite app_nil_r. split; [reflexivity | constructor].
  - simpl in Hwf. apply andb_true_iff in Hwf as [Hrow Hwf].
    apply Nat.eqb_eq in Hrow.
    cbn [for_each_r]. rewrite row_step_acc.
    destruct (row_step tpl cols [] row) as [d | e] eqn:Ed; [| discriminate].
    destruct (row_step_time tpl cols row d) as [msg ->];
      [apply make_context_present; assumption | exact Ed |].
    intros H. apply IH in H as (msgs & -> & Hf); [| exact Hwf].
    exists (msg :: msgs). split; [rewrite <- app_assoc; reflexivity |].
    constructor; assumption.
Qed.

(** X5. In a sheet that has a "Time" column and a cell per column in every
    row, a finished loop over the rows leaves exactly one message per row,
    in the order of the rows; each is the message the row gives on its own. *)
Theorem one_message_per_row (tpl : template) (df : DataFrame pystr) (messages : list pystr) :
  well_formed df = true ->
  str "Time" ∈ columns df ->
  sheet_messages tpl df = Ok messages ->
  length messages = len df
  /\ Forall2 (fun row msg => row_step tpl (columns df) [] row = Ok [msg])
       (rows df) messages.
Proof.
  intros Hwf Ht Hm. unfold sheet_messages in Hm.
  apply rows_with_time in Hm as (msgs & -> & Hf); [| exact Ht | exact Hwf].
  simpl. split; [| exact Hf].
  symmetry. apply (Forall2_length _ _ _ Hf).
Qed.

End RowFacts.

Section SheetFacts.
Context {U : Unicode} {E : Env}.

Lemma fold_insert_notin (l : list (pystr * pystr)) (m : gmap pystr pystr) k :
  (forall v, (k, v) ∉ l) ->
  fold_left (fun ctx kv => <[kv.1 := kv.2]> ctx) l m !! k = m !! k.
Proof.
  revert m. induction l as [| [k' v'] l IH]; intros m Hl; [reflexivity |].
  simpl. rewrite IH.
  - apply lookup_insert_ne. intros ->. apply (Hl v'). left.
  - intros v Hv. apply (Hl v). right. exact Hv.
Qed.

Lemma row_get_fold (cols row : list pystr) (label dflt : pystr) (m : gmap pystr pystr) :
  NoDup cols ->
  m !! label = None ->
  default dflt (fold_left (fun ctx kv => <[kv.1 := kv.2]> ctx) (zip cols row) m !! label)
  = row_get cols row label dflt.
Proof.
  intros Hnd. revert row m.
  induction Hnd as [| c cols Hc Hnd IH]; intros row m Hm.
  - simpl. rewrite Hm. destruct row; reflexivity.
  - destruct row as [| v row]; [simpl; rewrite Hm; reflexivity |].
    cbn [zip zip_with fold_left row_get fst snd].
    destruct (decide (c = label)) as [-> | Hne].
    + rewrite bool_decide_eq_true_2 by reflexivity.
      rewrite fold_insert_notin, lookup_insert_eq; [reflexivity |].
      intros v' Hv'. apply Hc. eapply elem_of_zip_l. exact Hv'.
    + rewrite bool_decide_eq_false_2 by exact Hne.
      rewrite (fold_insert_congr _ _ m) by (apply lookup_insert_ne; exact Hne).
      apply IH. exact Hm.
Qed.

(** X6. With distinct column labels, the cell [row.get] finds for a label is
    the value the context has under it, and the default when the label is
    not a key: the "To:" line and the template see the same email. *)
Theorem row_get_agrees_with_context (cols : list pystr) (row : list pystr) (label dflt : pystr) :
  NoDup cols ->
  row_get cols row label dflt = default dflt (make_context cols row !! label).
Proof.
  intros Hnd. symmetry. unfold make_context.
  apply row_get_fold; [exact Hnd | apply lookup_empty].
Qed.

(** X7. A sheet without a "Time" column still gets its file, which is
    empty, while the line printed for it reports as many messages as the
    sheet has rows, and the running total grows by that number. *)
Theorem sheet_without_time_reports_rows
    (tpl : template) (dir : pypath) (total : nat)
    (sheet : pystr * DataFrame (option pystr)) (w : world) :
  str "Time" ∉ columns sheet.2 ->
  can_write (output_file dir sheet.1) = true ->
  sheet_step tpl dir total sheet w
  = (Ok (total + len sheet.2)%nat,
     {| console := console w ++ [SheetWritten (len sheet.2) (output_file dir sheet.1)];
        written := written w ++ [(output_file dir sheet.1, [])] |}).
Proof.
  intros Ht Hw. unfold sheet_step, bind, lift, write_file, print, ret.
  rewrite sheet_without_time by exact Ht.
  rewrite Hw, len_fillna. reflexivity.
Qed.

(** X8. Two sheets are written to the same file exactly when their
    sanitised names are the same, so sheet names that differ only in
    characters that are replaced share one output file. *)
Theorem same_file_iff_same_safe_name (dir : pypath) (name1 name2 : pystr) :
  output_file dir name1 = output_file dir name2
  <-> safe_sheet_name name1 = safe_sheet_name name2.
Proof.
  split.
  - rewrite !output_file_parts. intros [= H].
    apply app_inv_head in H. injection H as H.
    apply app_inv_tail in H. exact H.
  - unfold output_file. intros ->. reflexivity.
Qed.

End SheetFacts.

Section RunFacts.
Context {U : Unicode} {E : Env}.

Lemma well_formed_fillna df : well_formed (fillna df) = well_formed df.
Proof.
  unfold well_formed, fillna. simpl.
  induction (rows df) as [| row rest IH]; [reflexivity |].
  simpl. rewrite length_map, IH. reflexivity.
Qed.

Lemma sheet_messages_count tpl (df : DataFrame pystr) ms :
  well_formed df = true ->
  sheet_messages tpl df = Ok ms ->
  length ms = if bool_decide (str "Time" ∈ columns df) then len df else 0%nat.
Proof.
  intros Hwf Hm. destruct (decide (str "Time" ∈ columns df)) as [Ht | Ht].
  - rewrite bool_decide_eq_true_2 by exact Ht.
    unfold sheet_messages in Hm.
    apply rows_with_time in Hm as (msgs & -> & Hf); [| exact Ht | exact Hwf].
    simpl. symmetry. apply (Forall2_length _ _ _ Hf).
  - rewrite bool_decide_eq_false_2 by exact Ht.
    rewrite sheet_without_time in Hm by exact Ht. injection Hm as <-. reflexivity.
Qed.

Lemma files_hold_time_rows tpl dir sheets (files : list (pypath * pystr)) :
  Forall2
    (fun sheet file =>
       file.1 = output_file dir sheet.1
       /\ exists messages,
           sheet_messages tpl (fillna sheet.2) = Ok messages
           /\ file.2 = join [10] messages)
    sheets files ->
  Forall (fun sheet => well_formed sheet.2 = true) sheets ->
  exists mss : list (list pystr),
    Forall2 (fun sheet ms => sheet_messages tpl (fillna sheet.2) = Ok ms) sheets mss
    /\ map snd files = map (join [10]) mss
    /\ length (concat mss) = time_rows sheets.
Proof.
  induction 1 as [| sheet file sheets files (_ & ms & Hm & Hj) _ IH]; intros Hwf.
  - exists []. repeat split; constructor.
  - apply Forall_cons in Hwf as [Hs Hwf]. cbv beta in Hs.
    destruct (IH Hwf) as (mss & Hf & Hmap & Hlen).
    exists (ms :: mss). split; [constructor; assumption |]. split.
    + simpl. rewrite Hj, Hmap. reflexivity.
    + simpl. rewrite length_app, Hlen.
      rewrite (sheet_messages_count tpl (fillna sheet.2) ms) by
        (rewrite ?well_formed_fillna; assumption).
      rewrite len_fillna. cbn [fillna columns].
      destruct (bool_decide _); reflexivity.
Qed.

(** X9. In a completed run on sheets with a cell per column in every row,
    the messages written to the files number the rows of the sheets that
    have a "Time" column, whatever total the summary reports. *)
Theorem messages_written_are_time_rows
    excel_path template_file w
    (sheets : list (pystr * DataFrame (option pystr))) (tpl : template) :
  generate_emails excel_path template_file start = (Ok tt, w) ->
  read_excel excel_path = Ok sheets ->
  get_template template_file = Ok tpl ->
  Forall (fun sheet => well_formed sheet.2 = true) sheets ->
  exists mss : list (list pystr),
    Forall2 (fun sheet ms => sheet_messages tpl (fillna sheet.2) = Ok ms) sheets mss
    /\ map snd (written w) = map (join [10]) mss
    /\ length (concat mss) = time_rows sheets.
Proof.
  intros Hrun Hr Ht Hwf.
  apply generate_emails_ok in Hrun as (sheets' & tpl' & Hr' & Ht' & _ & Hf).
  rewrite Hr in Hr'. injection Hr' as <-. rewrite Ht in Ht'. injection Ht' as <-.
  eapply files_hold_time_rows; eassumption.
Qed.

End RunFacts.

Section FailureFacts.
Context {U : Unicode} {E : Env}.

Lemma row_step_raise_tpl tpl cols acc row e :
  row_step tpl cols acc row = Raise e -> exists ctx, tpl ctx = Raise e.
Proof.
  unfold row_step.
  destruct (make_context cols row !! str "Time") as [time |]; [| discriminate].
  destruct (format_time_cell time) as [formatted Hf]. rewrite Hf.
  destruct (tpl _) as [rendered | e'] eqn:Et; [discriminate |].
  intros [= <-]. eauto.
Qed.

Lemma sheet_messages_raise tpl (df : DataFrame pystr) e :
  sheet_messages tpl df = Raise e -> exists ctx, tpl ctx = Raise e.
Proof.
  unfold sheet_messages. generalize (@nil pystr).
  induction (rows df) as [| row rest IH]; intros acc; [discriminate |].
  cbn [for_each_r].
  destruct (row_step tpl (columns df) acc row) as [acc' | e'] eqn:Er.
  - apply IH.
  - intros [= <-]. eapply row_step_raise_tpl. exact Er.
Qed.

(** A sheet that fails leaves the console and the files as they were. *)
Lemma sheet_step_raise tpl dir total sheet w e w' :
  sheet_step tpl dir total sheet w = (Raise e, w') ->
  w' = w
  /\ (sheet_messages tpl (fillna sheet.2) = Raise e
      \/ (e = OSError /\ can_write (output_file dir sheet.1) = false)).
Proof.
  unfold sheet_step, bind, lift, write_file, print, ret.
  destruct (sheet_messages tpl (fillna sheet.2)) as [messages | e'].
  - destruct (can_write _) eqn:Ew; [discriminate |].
    intros [= <- <-]. auto.
  - intros [= <- <-]. auto.
Qed.

Lemma for_each_sheets_raise tpl dir sheets total w e w' :
  for_each (sheet_step tpl dir) total sheets w = (Raise e, w') ->
  exists n sheet,
    sheets !! n = Some sheet
    /\ console w'
       = console w
           ++ map (fun sheet => SheetWritten (len sheet.2) (output_file dir sheet.1))
                (take n sheets)
    /\ map fst (written w')
       = map fst (written w)
           ++ map (fun sheet => output_file dir sheet.1) (take n sheets)
    /\ (sheet_messages tpl (fillna sheet.2) = Raise e
        \/ (e = OSError /\ can_write (output_file dir sheet.1) = false)).
Proof.
  revert total w. induction sheets as [| s sheets IH]; intros total w; [discriminate |].
  cbn [for_each]. unfold bind at 1.
  destruct (sheet_step tpl dir total s w) as [[t1 | e1] w1] eqn:E1.
  - intros H. apply IH in H as (n & sheet & Hn & Hc & Hw & He).
    apply sheet_step_ok in E1 as (messages & _ & _ & Hc1 & Hw1).
    exists (S n), sheet. split; [exact Hn |]. split; [| split; [| exact He]].
    + rewrite Hc, Hc1, <- app_assoc. reflexivity.
    + rewrite Hw, Hw1, map_app, <- app_assoc. reflexivity.
  - intros [= <- <-]. apply sheet_step_raise in E1 as (-> & He).
    exists 0%nat, s. split; [reflexivity |].
    simpl. rewrite !app_nil_r. auto.
Qed.

(** How a run can fail: before the loop, with nothing written and at most
    one line printed, or in the loop, at some sheet. *)
Lemma generate_emails_raise excel_path template_file e w :
  generate_emails excel_path template_file start = (Raise e, w) ->
  (written w = []
   /\ (forall t k, Done t k ∉ console w)
   /\ (e = SystemExit 1
       \/ read_excel excel_path = Raise e
       \/ get_template template_file = Raise e))
  \/ exists sheets tpl n sheet,
      read_excel excel_path = Ok sheets
      /\ get_template template_file = Ok tpl
      /\ sheets !! n = Some sheet
      /\ console w
         = map (fun sheet =>
                  SheetWritten (len sheet.2) (output_file (parent excel_path) sheet.1))
             (take n sheets)
      /\ map fst (written w)
         = map (fun sheet => output_file (parent excel_path) sheet.1) (take n sheets)
      /\ (sheet_messages tpl (fillna sheet.2) = Raise e
          \/ (e = OSError
              /\ can_write (output_file (parent excel_path) sheet.1) = false)).
Proof.
  assert (Hone : forall l : line, (forall t k, l <> Done t k) ->
                   forall t k, Done t k ∉ [l]).
  { intros l Hl t k Hin. apply list_elem_of_singleton in Hin. exact (Hl t k (eq_sym Hin)). }
  unfold generate_emails.
  destruct (path_exists excel_path); cbn [negb];
    [| intros [= <- <-]; left; split; [reflexivity | split; [| auto]];
       apply Hone; discriminate].
  destruct (path_exists (joinpath _ _)); cbn [negb];
    [| intros [= <- <-]; left; split; [reflexivity | split; [| auto]];
       apply Hone; discriminate].
  destruct (path_exists TEMPLATE_DIR); cbn [negb];
    [| intros [= <- <-]; left; split; [reflexivity | split; [| auto]];
       apply Hone; discriminate].
  unfold bind at 1. unfold load_sheets.
  destruct (read_excel excel_path) as [sheets | e0].
  - unfold ret at 1. unfold bind at 1, lift.
    destruct (get_template template_file) as [tpl | e1].
    + unfold bind.
      destruct (for_each _ _ sheets start) as [[total | e2] w1] eqn:E1;
        [discriminate |].
      intros [= <- <-]. right.
      apply for_each_sheets_raise in E1 as (n & sheet & Hn & Hc & Hw & He).
      exists sheets, tpl, n, sheet. simpl in Hc, Hw. auto 10.
    + intros [= <- <-]. left. split; [reflexivity |].
      split; [intros t k Hin; apply elem_of_nil in Hin; exact Hin | auto].
  - destruct e0; intros [= <- <-]; left;
      (split; [reflexivity |]); split; try (apply Hone; discriminate); auto;
      intros t k Hin; apply elem_of_nil in Hin; exact Hin.
Qed.

End FailureFacts.

Section OutcomeFacts.
Context {U : Unicode} {E : Env}.

(** X11. A run that ends with an exception has not printed the summary
    line. *)
Theorem no_summary_after_failure excel_path template_file (e : exn) (w : world) :
  generate_emails excel_path template_file start = (Raise e, w) ->
  forall total k, Done total k ∉ console w.
Proof.
  intros Hrun.
  apply generate_emails_raise in Hrun
    as [(_ & Hd & _) | (sheets & tpl & n & sheet & _ & _ & _ & Hc & _)];
    [exact Hd |].
  intros total k Hin. rewrite Hc in Hin.
  apply list_elem_of_In, in_map_iff in Hin as (s & Hs & _). discriminate Hs.
Qed.

(** X12. A file is written only after every check has passed and both the
    workbook and the template have been loaded. *)
Theorem writes_need_all_checks excel_path template_file (r : result unit) (w : world) :
  generate_emails excel_path template_file start = (r, w) ->
  written w <> [] ->
  path_exists excel_path = true
  /\ path_exists (joinpath TEMPLATE_DIR (Path template_file)) = true
  /\ path_exists TEMPLATE_DIR = true
  /\ (exists sheets, read_excel excel_path = Ok sheets)
  /\ (exists tpl, get_template template_file = Ok tpl).
Proof.
  unfold generate_emails.
  destruct (path_exists excel_path); cbn [negb];
    [| intros [= <- <-] Hw; contradiction Hw; reflexivity].
  destruct (path_exists (joinpath _ _)); cbn [negb];
    [| intros [= <- <-] Hw; contradiction Hw; reflexivity].
  destruct (path_exists TEMPLATE_DIR); cbn [negb];
    [| intros [= <- <-] Hw; contradiction Hw; reflexivity].
  unfold bind at 1. unfold load_sheets.
  destruct (read_excel excel_path) as [sheets | e0];
    [| destruct e0; intros [= <- <-] Hw; contradiction Hw; reflexivity].
  unfold ret at 1. unfold bind at 1, lift.
  destruct (get_template template_file) as [tpl | e1];
    [| intros [= <- <-] Hw; contradiction Hw; reflexivity].
  intros _ _. eauto 10.
Qed.

(** X14. With fewer than two arguments after the program name, the command
    line is not looked at: a lone spreadsheet path is dropped and both
    values are asked for.  With two or more, standard input is not read and
    the arguments after the second are ignored. *)
Theorem main_reads_arguments_or_prompts (argv argv' stdin stdin' : list pystr) :
  ((length argv <= 2)%nat -> (length argv' <= 2)%nat ->
   main argv stdin = main argv' stdin)
  /\ ((2 < length argv)%nat ->
      main argv stdin = main (take 3 argv) stdin').
Proof.
  split.
  - intros H H'. unfold main, read_arguments.
    rewrite !(proj2 (Nat.ltb_ge _ _)) by lia. reflexivity.
  - intros H. unfold main, read_arguments.
    destruct argv as [| a0 [| a1 [| a2 rest]]]; simpl in H; try lia.
    reflexivity.
Qed.


End OutcomeFacts.

(** ** The context of a row and the totals of a run *)

Section ContextFacts.
Context {U : Unicode} {E : Env}.

Lemma fold_insert_at (cols : list pystr) (row : list pystr) (m : gmap pystr pystr)
    (i : nat) (c v : pystr) :
  NoDup cols ->
  cols !! i = Some c -> row !! i = Some v ->
  fold_left (fun ctx kv => <[kv.1 := kv.2]> ctx) (zip cols row) m !! c = Some v.
Proof.
  intros Hnd. revert row m i.
  induction Hnd as [| c0 cols Hc0 Hnd IH]; intros row m i Hc Hv; [discriminate Hc |].
  destruct row as [| v0 row]; [discriminate Hv |].
  cbn [zip zip_with fold_left fst snd].
  destruct i as [| j].
  - injection Hc as <-. injection Hv as <-.
    rewrite fold_insert_notin; [apply lookup_insert_eq |].
    intros v' Hv'. apply Hc0. eapply elem_of_zip_l. exact Hv'.
  - eapply IH; eassumption.
Qed.

(** X16. With distinct column labels the context holds the row's cells
    under their labels and nothing else: the cell at the position of a
    label is the value of that key, and a label that is not a column is not
    a key. *)
Theorem context_holds_the_row (cols : list pystr) (row : list pystr) :
  NoDup cols ->
  (forall (i : nat) (c v : pystr),
      cols !! i = Some c -> row !! i = Some v ->
      make_context cols row !! c = Some v)
  /\ (forall c : pystr, c ∉ cols -> make_context cols row !! c = None).
Proof.
  intros Hnd. split.
  - intros i c v Hc Hv. unfold make_context. eapply fold_insert_at; eassumption.
  - intros c Hc. apply make_context_absent. exact Hc.
Qed.

(** X17. A "Time" cell that is not a time (the empty cell of a missing
    value too) changes nothing: the template is given the row's context as
    it is, and the message is built from what it renders. *)
Theorem unparsed_time_keeps_context
    (tpl : template) (cols : list pystr) (messages : list pystr) (row : list pystr)
    (time : pystr) :
  make_context cols row !! str "Time" = Some time ->
  lenient_hms time = false ->
  row_step tpl cols messages row
  = match tpl (make_context cols row) with
    | Ok rendered =>
        Ok (messages
              ++ [str "To: " ++ strip (row_get cols row (str "email") [])
                    ++ [10; 10] ++ strip rendered ++ [10; 10]
                    ++ repeat 45 60%nat ++ [10]])
    | Raise e => Raise e
    end.
Proof.
  intros Ht Hl. unfold row_step. rewrite Ht.
  assert (Hf : format_time (VStr time) = Ok time).
  { destruct time as [| c r]; [reflexivity |]. cbn [format_time].
    destruct (strptime (c :: r)) as [dt | e] eqn:Ep.
    - apply strptime_lenient in Ep. congruence.
    - apply strptime_raises in Ep. subst e. reflexivity. }
  rewrite Hf, (insert_id _ _ _ Ht). reflexivity.
Qed.

End ContextFacts.

Section SecondsFacts.
Context {U : Unicode}.

Lemma format_time_digits a b c d e f :
  b <= 9 -> 10 * a + b <= 23 ->
  d <= 9 -> 10 * c + d <= 59 ->
  f <= 9 -> 10 * e + f <= 59 ->
  format_time (VStr [digit a; digit b; 58; digit c; digit d; 58; digit e; digit f])
  = Ok (strftime {| hour := 10 * a + b; minute := 10 * c + d; second := 10 * e + f |}).
Proof.
  intros. cbn [format_time]. rewrite strptime_digits by assumption. reflexivity.
Qed.

(** X18. The seconds are dropped: two strings in the form "HH:MM:SS" with
    the same hour and minute are formatted alike. *)
Theorem format_time_ignores_seconds (s1 s2 : pystr) :
  valid_hms s1 = true -> valid_hms s2 = true ->
  take 5 s1 = take 5 s2 ->
  format_time (VStr s1) = format_time (VStr s2).
Proof.
  intros H1 H2 Ht.
  destruct (valid_hms_shape s1 H1)
    as (a1 & b1 & c1 & d1 & e1 & f1 & -> & Hd1 & Hh1 & Hm1 & Hs1).
  destruct (valid_hms_shape s2 H2)
    as (a2 & b2 & c2 & d2 & e2 & f2 & -> & Hd2 & Hh2 & Hm2 & Hs2).
  rewrite !format_time_digits by lia.
  unfold digit in Ht. simpl in Ht. injection Ht as Ha Hb Hc Hd.
  assert (a1 = a2) as -> by lia. assert (b1 = b2) as -> by lia.
  assert (c1 = c2) as -> by lia. assert (d1 = d2) as -> by lia.
  reflexivity.
Qed.

End SecondsFacts.

Section TotalFacts.
Context {U : Unicode} {E : Env}.

Lemma time_rows_le_total sheets : (time_rows sheets <= total_rows sheets)%nat.
Proof.
  induction sheets as [| sheet sheets IH]; [reflexivity |].
  simpl. destruct (bool_decide _); lia.
Qed.

Lemma time_rows_eq_total sheets :
  time_rows sheets = total_rows sheets
  <-> Forall (fun sheet => str "Time" ∈ columns sheet.2 \/ len sheet.2 = 0%nat) sheets.
Proof.
  induction sheets as [| sheet sheets IH].
  - split; [constructor | reflexivity].
  - pose proof (time_rows_le_total sheets) as Hle.
    rewrite Forall_cons, <- IH. simpl.
    destruct (decide (str "Time" ∈ columns sheet.2)) as [Ht | Ht].
    + rewrite bool_decide_eq_true_2 by exact Ht. split; [| lia].
      intros H. split; [left; exact Ht | lia].
    + rewrite bool_decide_eq_false_2 by exact Ht. split.
      * intros H. split; [right |]; lia.
      * intros [[Ht' | H0] H]; [contradiction | lia].
Qed.

(** X19. In a completed run on sheets with a cell per column in every row,
    the total of the summary is never below the number of messages
    written, and the two agree exactly when every sheet without a "Time"
    column has no row. *)
Theorem summary_total_bounds_messages
    excel_path template_file w
    (sheets : list (pystr * DataFrame (option pystr))) (tpl : template) :
  generate_emails excel_path template_file start = (Ok tt, w) ->
  read_excel excel_path = Ok sheets ->
  get_template template_file = Ok tpl ->
  Forall (fun sheet => well_formed sheet.2 = true) sheets ->
  exists (mss : list (list pystr)) (total : nat),
    Forall2 (fun sheet ms => sheet_messages tpl (fillna sheet.2) = Ok ms) sheets mss
    /\ last (console w) = Some (Done total (length sheets))
    /\ (length (concat mss) <= total)%nat
    /\ (length (concat mss) = total
        <-> Forall (fun sheet => str "Time" ∈ columns sheet.2 \/ len sheet.2 = 0%nat)
              sheets).
Proof.
  intros Hrun Hr Ht Hwf.
  apply generate_emails_ok in Hrun as (sheets' & tpl' & Hr' & Ht' & Hc & Hf).
  rewrite Hr in Hr'. injection Hr' as <-. rewrite Ht in Ht'. injection Ht' as <-.
  destruct (files_hold_time_rows _ _ _ _ Hf Hwf) as (mss & Hm & _ & Hlen).
  exists mss, (total_rows sheets). split; [exact Hm |].
  split; [rewrite Hc; apply last_snoc |].
  rewrite Hlen. split; [apply time_rows_le_total | apply time_rows_eq_total].
Qed.

End TotalFacts.

(** *** The further properties at concrete inputs *)

Lemma format_time_optional_zero_witness :
  format_time (U := ascii_only) (VStr (str "9:5:03")) = Ok (str "09:05 AM").
Proof.
  apply (format_time_optional_zero (U := ascii_only)
           (str "9") (str "5") (str "03") 9 5 3);
    (lia || (vm_compute; reflexivity)).
Defined.

Lemma format_time_idempotent_witness :
  format_time (U := ascii_only) (VStr (str "13:30:00")) = Ok (str "01:30 PM")
  /\ format_time (U := ascii_only) (VStr (str "01:30 PM")) = Ok (str "01:30 PM").
Proof.
  split; [reflexivity |].
  apply (format_time_idempotent (U := ascii_only) (str "13:30:00")). reflexivity.
Defined.

Lemma format_time_output_shape_witness :
  format_time (U := ascii_only) (VStr (str "13:30:00")) = Ok (str "01:30 PM")
  /\ (str "01:30 PM" = str "13:30:00" \/ length (str "01:30 PM") = 8%nat)
  /\ (str "01:30 PM" = [] -> str "13:30:00" = []).
Proof.
  split; [reflexivity |].
  apply (format_time_output_shape (U := ascii_only)). reflexivity.
Defined.

Lemma row_fails_only_in_template_witness :
  row_step (U := ascii_only) broken team_columns [] ann = Raise (LibraryError 1)
  /\ exists time formatted : pystr,
      make_context team_columns ann !! str "Time" = Some time
      /\ format_time (U := ascii_only) (VStr time) = Ok formatted
      /\ broken (<[str "Time" := formatted]> (make_context team_columns ann))
         = Raise (LibraryError 1).
Proof.
  assert (H : row_step (U := ascii_only) broken team_columns [] ann
              = Raise (LibraryError 1)) by (vm_compute; reflexivity).
  split; [exact H |].
  exact (row_fails_only_in_template (U := ascii_only) broken team_columns [] ann _ H).
Defined.

Lemma team_a_has_time : str "Time" ∈ columns team_a.
Proof. apply (bool_decide_unpack _). vm_compute. exact I. Defined.

Lemma one_message_per_row_witness :
  exists messages : list pystr,
    sheet_messages (U := ascii_only) hello team_a = Ok messages
    /\ length messages = len team_a
    /\ Forall2
         (fun row msg => row_step (U := ascii_only) hello (columns team_a) [] row = Ok [msg])
         (rows team_a) messages.
Proof.
  destruct (sheet_messages (U := ascii_only) hello team_a) as [messages | e] eqn:Em;
    [| vm_compute in Em; discriminate Em].
  exists messages. split; [reflexivity |].
  apply (one_message_per_row (U := ascii_only) hello team_a messages);
    [reflexivity | exact team_a_has_time | exact Em].
Defined.

Lemma team_columns_distinct : NoDup team_columns.
Proof. apply (bool_decide_unpack _). vm_compute. exact I. Defined.

Lemma row_get_agrees_with_context_witness :
  row_get team_columns ann (str "email") []
  = default [] (make_context team_columns ann !! str "email").
Proof.
  apply row_get_agrees_with_context. exact team_columns_distinct.
Defined.

Lemma notes_has_no_time :
  str "Time" ∉ columns (str "Notes", {| columns := [str "name"];
                                        rows := [[Some (str "Ann")]] |}).2.
Proof. apply (bool_decide_unpack _). vm_compute. exact I. Defined.

Lemma sheet_without_time_reports_rows_witness :
  sheet_step (U := ascii_only) (E := office) hello (parent contacts) 0%nat
    (str "Notes", {| columns := [str "name"]; rows := [[Some (str "Ann")]] |}) start
  = (Ok 1%nat,
     {| console := [SheetWritten 1 (output_file (U := ascii_only) (parent contacts) (str "Notes"))];
        written := [(output_file (U := ascii_only) (parent contacts) (str "Notes"), [])] |}).
Proof.
  apply (sheet_without_time_reports_rows (U := ascii_only) (E := office)
           hello (parent contacts) 0%nat
           (str "Notes", {| columns := [str "name"]; rows := [[Some (str "Ann")]] |})
           start);
    [exact notes_has_no_time | reflexivity].
Defined.

Lemma same_file_iff_same_safe_name_witness :
  output_file (U := ascii_only) (parent contacts) (str "Team A")
  = output_file (U := ascii_only) (parent contacts) (str "Team_A").
Proof.
  apply (same_file_iff_same_safe_name (U := ascii_only)). reflexivity.
Defined.

Lemma teams_well_formed : Forall (fun sheet => well_formed sheet.2 = true) teams.
Proof. repeat constructor. Defined.

Lemma messages_written_are_time_rows_witness :
  exists mss : list (list pystr),
    Forall2 (fun sheet ms => sheet_messages (U := ascii_only) hello (fillna sheet.2) = Ok ms)
      teams mss
    /\ map snd (written office_world) = map (join [10]) mss
    /\ length (concat mss) = time_rows teams.
Proof.
  exact (messages_written_are_time_rows (U := ascii_only) (E := office)
           contacts (str "invite.txt") office_world teams hello
           office_run eq_refl eq_refl teams_well_formed).
Defined.

Lemma no_templates_run :
  generate_emails (U := ascii_only) (E := no_templates) contacts (str "invite.txt") start
  = (Raise (SystemExit 1), no_templates_world).
Proof. vm_compute. reflexivity. Defined.

Lemma no_summary_after_failure_witness :
  Done 2 2 ∉ console no_templates_world.
Proof.
  exact (no_summary_after_failure (U := ascii_only) (E := no_templates)
           contacts (str "invite.txt") (SystemExit 1) no_templates_world no_templates_run
           2%nat 2%nat).
Defined.

Lemma office_wrote_files : written office_world <> [].
Proof. vm_compute. discriminate. Defined.

Lemma writes_need_all_checks_witness :
  path_exists (Env := office) contacts = true
  /\ path_exists (Env := office)
       (joinpath (TEMPLATE_DIR (Env := office)) (Path (str "invite.txt"))) = true
  /\ path_exists (Env := office) (TEMPLATE_DIR (Env := office)) = true
  /\ (exists sheets, read_excel (Env := office) contacts = Ok sheets)
  /\ (exists tpl, get_template (Env := office) (str "invite.txt") = Ok tpl).
Proof.
  exact (writes_need_all_checks (U := ascii_only) (E := office)
           contacts (str "invite.txt") (Ok tt) office_world office_run office_wrote_files).
Defined.

Lemma main_reads_arguments_or_prompts_witness :
  main (U := ascii_only) (E := office)
    [str "generate_emails.py"; str "data/contacts.xlsx"] [str "a.xlsx"; str "t.txt"]
  = main (U := ascii_only) (E := office)
      [str "generate_emails.py"] [str "a.xlsx"; str "t.txt"]
  /\ main (U := ascii_only) (E := office)
       [str "generate_emails.py"; str "a.xlsx"; str "t.txt"; str "more"] [str "unread"]
     = main (U := ascii_only) (E := office)
         (take 3 [str "generate_emails.py"; str "a.xlsx"; str "t.txt"; str "more"]) [].
Proof.
  split.
  - apply (proj1 (main_reads_arguments_or_prompts (U := ascii_only) (E := office)
                    [str "generate_emails.py"; str "data/contacts.xlsx"]
                    [str "generate_emails.py"] [str "a.xlsx"; str "t.txt"] []));
      simpl; lia.
  - apply (proj2 (main_reads_arguments_or_prompts (U := ascii_only) (E := office)
                    [str "generate_emails.py"; str "a.xlsx"; str "t.txt"; str "more"]
                    [] [str "unread"] [])).
    simpl. lia.
Defined.


Lemma phone_is_no_column : str "phone" ∉ team_columns.
Proof. apply (bool_decide_unpack _). vm_compute. exact I. Defined.

Lemma context_holds_the_row_witness :
  make_context team_columns ann !! str "email" = Some (str " ann@example.org ")
  /\ make_context team_columns ann !! str "phone" = None.
Proof.
  destruct (context_holds_the_row team_columns ann team_columns_distinct) as [Hin Hout].
  split.
  - apply (Hin 1%nat); reflexivity.
  - apply Hout. exact phone_is_no_column.
Defined.

Lemma unparsed_time_keeps_context_witness :
  make_context team_columns [str "Ann"; str "a@b.c"; str "9am"] !! str "Time"
  = Some (str "9am")
  /\ lenient_hms (U := ascii_only) (str "9am") = false
  /\ row_step (U := ascii_only) hello team_columns [] [str "Ann"; str "a@b.c"; str "9am"]
     = match hello (make_context team_columns [str "Ann"; str "a@b.c"; str "9am"]) with
       | Ok rendered =>
           Ok ([] ++ [str "To: "
                        ++ strip (U := ascii_only)
                             (row_get team_columns [str "Ann"; str "a@b.c"; str "9am"]
                                (str "email") [])
                        ++ [10; 10] ++ strip (U := ascii_only) rendered ++ [10; 10]
                        ++ repeat 45 60%nat ++ [10]])
       | Raise e => Raise e
       end.
Proof.
  assert (H1 : make_context team_columns [str "Ann"; str "a@b.c"; str "9am"] !! str "Time"
               = Some (str "9am")) by (vm_compute; reflexivity).
  assert (H2 : lenient_hms (U := ascii_only) (str "9am") = false) by reflexivity.
  split; [exact H1 |]. split; [exact H2 |].
  exact (unparsed_time_keeps_context (U := ascii_only) hello team_columns []
           [str "Ann"; str "a@b.c"; str "9am"] (str "9am") H1 H2).
Defined.

Lemma format_time_ignores_seconds_witness :
  format_time (U := ascii_only) (VStr (str "13:30:00"))
  = format_time (U := ascii_only) (VStr (str "13:30:59")).
Proof.
  apply (format_time_ignores_seconds (U := ascii_only)); reflexivity.
Defined.

Lemma summary_total_bounds_messages_witness :
  exists (mss : list (list pystr)) (total : nat),
    Forall2 (fun sheet ms => sheet_messages (U := ascii_only) hello (fillna sheet.2) = Ok ms)
      teams mss
    /\ last (console office_world) = Some (Done total (length teams))
    /\ (length (concat mss) <= total)%nat
    /\ (length (concat mss) = total
        <-> Forall (fun sheet => str "Time" ∈ columns sheet.2 \/ len sheet.2 = 0%nat)
              teams).
Proof.
  exact (summary_total_bounds_messages (U := ascii_only) (E := office)
           contacts (str "invite.txt") office_world teams hello
           office_run eq_refl eq_refl teams_well_formed).
Defined.

(** ** The time-like value that is refused, the message in full, the file of
    a sheet *)

Section RevisedFacts.
Context {U : Unicode} {E : Env}.


(** *** [strip] is the only trimming *)

Lemma lstrip_spaces l s : forallb isspace l = true -> lstrip (l ++ s) = lstrip s.
Proof.
  induction l as [| c l IH]; [reflexivity |].
  simpl. intros H. apply andb_true_iff in H as [Hc Hl].
  rewrite Hc. apply IH, Hl.
Qed.

Lemma lstrip_all_space r : forallb isspace r = true -> lstrip r = [].
Proof.
  intros H. rewrite <- (app_nil_r r). rewrite lstrip_spaces by exact H. reflexivity.
Qed.

Lemma lstrip_head s :
  (forall c, head s = Some c -> isspace c = false) -> lstrip s = s.
Proof.
  destruct s as [| c s]; [reflexivity |].
  intros H. simpl. rewrite (H c eq_refl). reflexivity.
Qed.

Lemma rstrip_spaces t r :
  forallb isspace r = true ->
  (forall c, last t = Some c -> isspace c = false) ->
  rstrip (t ++ r) = t.
Proof.
  intros Hr Ht. unfold rstrip.
  rewrite reverse_app, lstrip_spaces by (apply forallb_reverse; exact Hr).
  rewrite lstrip_head; [apply reverse_involutive |].
  intros c. rewrite head_reverse. apply Ht.
Qed.

Lemma trimmed_strip s t : trimmed s t -> strip s = t.
Proof.
  intros (l & r & -> & Hl & Hr & Hhead & Hlast). unfold strip.
  rewrite lstrip_spaces by exact Hl.
  destruct t as [| c t'].
  - simpl. rewrite lstrip_all_space by exact Hr. reflexivity.
  - rewrite lstrip_head.
    + apply rstrip_spaces; assumption.
    + intros c' Hc'. apply Hhead. exact Hc'.
Qed.

(** The cell [row.get] returns, read off the table by position. *)
Lemma row_get_at cols row label (address : pystr) :
  NoDup cols ->
  (forall i : nat, cols !! i = Some label -> row !! i = Some address) ->
  (label ∉ cols -> address = []) ->
  row_get cols row label [] = address.
Proof.
  intros Hnd Hin Hout.
  rewrite <- (row_get_fold cols row label [] ∅ Hnd (lookup_empty _)).
  destruct (decide (label ∈ cols)) as [Hl | Hl].
  - apply list_elem_of_lookup in Hl as [i Hi].
    rewrite (fold_insert_at cols row ∅ i label address Hnd Hi (Hin i Hi)).
    reflexivity.
  - fold (make_context cols row). rewrite make_context_absent by exact Hl.
    symmetry. apply Hout, Hl.
Qed.

(** C9. The message appended for a row is "To: ", the address without the
    whitespace around it, an empty line, the rendered text without the
    whitespace around it, an empty line, and a line of sixty dashes; the
    address is the cell of the row in the column labelled "email", and the
    empty string when the table has no such column. *)
Theorem rendered_message
    (tpl : template) (cols : list pystr) (messages : list pystr) (row : list pystr)
    (time formatted rendered address : pystr) :
  NoDup cols ->
  (forall i : nat, cols !! i = Some (str "email") -> row !! i = Some address) ->
  (str "email" ∉ cols -> address = []) ->
  make_context cols row !! str "Time" = Some time ->
  format_time (VStr time) = Ok formatted ->
  tpl (<[str "Time" := formatted]> (make_context cols row)) = Ok rendered ->
  exists email text : pystr,
    trimmed address email
    /\ trimmed rendered text
    /\ row_step tpl cols messages row
       = Ok (messages
               ++ [str "To: " ++ email ++ [10; 10] ++ text ++ [10; 10]
                     ++ repeat 45 60%nat ++ [10]]).
Proof.
  intros Hnd Hin Hout Ht Hf Hr.
  exists (strip address), (strip rendered).
  split; [apply strip_trimmed |]. split; [apply strip_trimmed |].
  unfold row_step. rewrite Ht, Hf, Hr.
  rewrite (row_get_at cols row (str "email") address Hnd Hin Hout). reflexivity.
Qed.

End RevisedFacts.

Section FileFacts.
Context {U : Unicode} {E : Env}.

Lemma same_path_spec p q : same_path p q = true <-> p = q.
Proof.
  unfold same_path. rewrite andb_true_iff, bool_decide_eq_true.
  destruct p as [a l], q as [b k]. simpl. split.
  - intros [Ha ->]. apply Bool.eqb_prop in Ha. subst b. reflexivity.
  - intros [= -> ->]. split; [apply Bool.eqb_reflx | reflexivity].
Qed.

Lemma read_back_none (log : list (pypath * pystr)) p :
  (forall (j : nat) q text, log !! j = Some (q, text) -> q <> p) ->
  read_back log p = None.
Proof.
  induction log as [| [q text] rest IH]; intros H; [reflexivity |].
  cbn [read_back]. rewrite IH by (intros j q' t' Hj; apply (H (S j) q' t' Hj)).
  destruct (same_path q p) eqn:Es; [| reflexivity].
  apply same_path_spec in Es. exfalso. exact (H 0%nat q text eq_refl Es).
Qed.

(** A path written once holds what was written to it. *)
Lemma read_back_unique (log : list (pypath * pystr)) (i : nat) p text :
  log !! i = Some (p, text) ->
  (forall (j : nat) q text', log !! j = Some (q, text') -> j <> i -> q <> p) ->
  read_back log p = Some text.
Proof.
  revert i. induction log as [| [q0 t0] rest IH]; intros i Hi H; [discriminate Hi |].
  cbn [read_back]. destruct i as [| i'].
  - injection Hi as -> ->.
    rewrite read_back_none
      by (intros j q' t' Hj; apply (H (S j) q' t' Hj); discriminate).
    rewrite (proj2 (same_path_spec p p) eq_refl). reflexivity.
  - rewrite (IH i' Hi); [reflexivity |].
    intros j q' t' Hj Hne. apply (H (S j) q' t' Hj). congruence.
Qed.

Lemma join_newline (messages : list pystr) :
  join [10] messages
  = match messages with
    | [] => []
    | m :: ms => m ++ concat (map (fun m' => 10 :: m') ms)
    end.
Proof.
  induction messages as [| m ms IH]; [reflexivity |].
  destruct ms as [| m' ms']; [simpl; rewrite app_nil_r; reflexivity |].
  change (join [10] (m :: m' :: ms')) with (m ++ [10] ++ join [10] (m' :: ms')).
  rewrite IH. reflexivity.
Qed.

(** X20. After a completed run there is one write per sheet, and a sheet
    whose sanitised name no other sheet shares has its own file: next to
    the spreadsheet, called "emails_output_", the sanitised name, ".txt",
    and holding the sheet's messages with one newline between them, so
    nothing at all when the sheet has no message. *)
Theorem unshared_sheet_keeps_its_file
    excel_path template_file w
    (sheets : list (pystr * DataFrame (option pystr))) (tpl : template)
    (i : nat) (sheet : pystr * DataFrame (option pystr)) (messages : list pystr)
    (folder : list pystr) (file_name : pystr) :
  generate_emails excel_path template_file start = (Ok tt, w) ->
  read_excel excel_path = Ok sheets ->
  get_template template_file = Ok tpl ->
  parts excel_path = folder ++ [file_name] ->
  sheets !! i = Some sheet ->
  (forall (j : nat) other,
      sheets !! j = Some other -> j <> i ->
      safe_sheet_name other.1 <> safe_sheet_name sheet.1) ->
  sheet_messages tpl (fillna sheet.2) = Ok messages ->
  length (written w) = length sheets
  /\ read_back (written w)
       {| absolute := absolute excel_path;
          parts := folder
                     ++ [str "emails_output_" ++ safe_sheet_name sheet.1 ++ str ".txt"] |}
     = Some match messages with
            | [] => []
            | m :: ms => m ++ concat (map (fun m' => 10 :: m') ms)
            end.
Proof.
  intros Hrun Hr Ht Hparts Hi Hother Hm.
  apply generate_emails_ok in Hrun as (sheets' & tpl' & Hr' & Ht' & _ & Hf).
  rewrite Hr in Hr'. injection Hr' as <-. rewrite Ht in Ht'. injection Ht' as <-.
  split; [symmetry; apply (Forall2_length _ _ _ Hf) |].
  assert (Hdir : forall name,
             output_file (parent excel_path) name
             = {| absolute := absolute excel_path;
                  parts := folder ++ [str "emails_output_" ++ safe_sheet_name name
                                        ++ str ".txt"] |}).
  { intros name. rewrite output_file_parts. unfold parent. simpl.
    rewrite Hparts, removelast_last. reflexivity. }
  destruct (Forall2_lookup_l _ _ _ _ _ Hf Hi) as ([p text] & Hw & Hp & ms & Hms & Htext).
  simpl in Hp, Htext. rewrite Hm in Hms. injection Hms as <-.
  rewrite <- join_newline, <- Htext, <- Hdir, <- Hp.
  apply (read_back_unique _ i); [exact Hw |].
  intros j q text' Hj Hne Hq.
  destruct (Forall2_lookup_r _ _ _ _ _ Hf Hj) as (other & Ho & Hpo & _).
  simpl in Hpo. apply (Hother j other Ho Hne).
  rewrite Hq, Hp, !Hdir in Hpo. injection Hpo as Hpo.
  apply app_inv_head in Hpo. injection Hpo as Hpo.
  apply app_inv_tail in Hpo. symmetry. exact Hpo.
Qed.

End FileFacts.

(** C8. The sheets "Team A" and "Team_A" do not get a file each: both are
    written to data/emails_output_Team_A.txt, the second write replaces the
    first, and after the run the file holds Bob's message alone; Ann's
    message, the content of the first sheet, is in no file. *)
Theorem colliding_sheets_share_a_file :
  generate_emails (U := ascii_only) (E := twins_office) contacts (str "invite.txt") start
  = (Ok tt, twins_world)
  /\ map (fun sheet => sheet_messages (U := ascii_only) hello (fillna sheet.2)) twins
     = [Ok [ann_message]; Ok [bob_message]]
  /\ written twins_world
     = [ (Path (str "data/emails_output_Team_A.txt"), ann_message);
         (Path (str "data/emails_output_Team_A.txt"), bob_message) ]
  /\ read_back (written twins_world) (Path (str "data/emails_output_Team_A.txt"))
     = Some bob_message
  /\ ann_message <> bob_message.
Proof.
  split; [vm_compute; reflexivity |].
  split; [vm_compute; reflexivity |].
  split; [vm_compute; reflexivity |].
  split; [vm_compute; reflexivity |].
  vm_compute. discriminate.
Qed.

(** *** The revised properties at concrete inputs *)

Lemma email_is_no_missing_column : ~ (str "email" ∉ team_columns).
Proof.
  intros H. apply H. apply (bool_decide_unpack _). vm_compute. exact I.
Defined.

Lemma rendered_message_witness :
  team_columns !! 1%nat = Some (str "email")
  /\ ann !! 1%nat = Some (str " ann@example.org ")
  /\ row_step (U := ascii_only) hello team_columns [] ann = Ok [ann_message].
Proof.
  split; [reflexivity |]. split; [reflexivity |].
  destruct (rendered_message (U := ascii_only) hello team_columns [] ann
              (str "09:00:00") (str "09:00 AM")
              (str "Hello Ann, your time is 09:00 AM") (str " ann@example.org "))
    as (email & text & He & Ht & Hrun).
  - exact team_columns_distinct.
  - intros [| [| [| i]]] H; vm_compute in H; try discriminate H; reflexivity.
  - intros H. destruct (email_is_no_missing_column H).
  - vm_compute. reflexivity.
  - reflexivity.
  - vm_compute. reflexivity.
  - apply (trimmed_strip (U := ascii_only)) in He, Ht. subst email text.
    rewrite Hrun. vm_compute. reflexivity.
Defined.

Lemma team_a_name_is_unshared :
  forall (j : nat) other,
    teams !! j = Some other -> j <> 0%nat ->
    safe_sheet_name (U := ascii_only) other.1
    <> safe_sheet_name (U := ascii_only) (str "Team A").
Proof.
  intros [| [| j]] other H Hne; [congruence | | discriminate H].
  injection H as <-. vm_compute. discriminate.
Defined.

Lemma unshared_sheet_keeps_its_file_witness :
  length (written office_world) = 2%nat
  /\ read_back (written office_world) (Path (str "data/emails_output_Team_A.txt"))
     = Some (ann_message ++ [10] ++ bob_message).
Proof.
  destruct (unshared_sheet_keeps_its_file (U := ascii_only) (E := office)
              contacts (str "invite.txt") office_world teams hello 0%nat
              (str "Team A",
               {| columns := team_columns;
                  rows := [ [Some (str "Ann"); Some (str " ann@example.org ");
                             Some (str "09:00:00")];
                            [Some (str "Bob"); None; Some (str "13:30:00")] ] |})
              [ann_message; bob_message] [str "data"] (str "contacts.xlsx"))
    as [Hlen Hfile].
  - exact office_run.
  - reflexivity.
  - reflexivity.
  - reflexivity.
  - reflexivity.
  - exact team_a_name_is_unshared.
  - vm_compute. reflexivity.
  - split; [exact Hlen |]. exact Hfile.
Defined.
